(** * The component-set build pipeline (gulpfile.js)

    A shallow embedding of the gulp build script: the generated style entry
    file, the vendor script bundle, the validator call sites, the archive
    step and the two pipelines, with the properties of the specification
    proved about them.

    JavaScript strings are modelled as [string]; relative paths are resolved
    against the project root, which is both [__dirname] of the gulpfile and
    the working directory gulp runs its tasks in. *)

From Stdlib Require Import ZArith Ascii String List Permutation Lia.
From stdpp Require Import gmap strings list fin_maps.

Local Open Scope Z_scope.

(* ===================================================================== *)
(** * JavaScript string primitives *)
(* ===================================================================== *)

Module JS.

(** [s.length] *)
Definition length (s : string) : Z := Z.of_nat (String.length s).

(** [s.slice(b, e)]: negative indices count from the end, both bounds are
    clamped to the string, an empty range gives the empty string. *)
Definition slice (s : string) (b e : Z) : string :=
  let len := length s in
  let from := if b <? 0 then Z.max (len + b) 0 else Z.min b len in
  let to := if e <? 0 then Z.max (len + e) 0 else Z.min e len in
  String.substring (Z.to_nat from) (Z.to_nat (Z.max (to - from) 0)) s.

(** [s.startsWith(p)] *)
Definition startsWith (s p : string) : bool := String.prefix p s.

(** [s.endsWith(p)] *)
Definition endsWith (s p : string) : bool :=
  (String.length p <=? String.length s)%nat
  && String.eqb
       (String.substring (String.length s - String.length p) (String.length p) s)
       p.

(** The double quote and the line feed, as one-character strings. *)
Definition dquote : string := String (ascii_of_nat 34) "".
Definition nl : string := String (ascii_of_nat 10) "".

(** [parts.join('')] of the pieces appended to an accumulator. *)
Fixpoint concat (l : list string) : string :=
  match l with
  | [] => ""
  | x :: r => x +:+ concat r
  end.

End JS.

(* ===================================================================== *)
(** * Node's [path] module (POSIX flavour) *)
(* ===================================================================== *)

Module NodePath.

Definition CHAR_FORWARD_SLASH : ascii := ascii_of_nat 47.
Definition CHAR_DOT : ascii := ascii_of_nat 46.

(** The loop variables of [path.extname]. *)
Record ext_state := ExtState {
  startDot : Z;
  startPart : Z;
  end_ : Z;
  matchedSlash : bool;
  preDotState : Z
}.

Definition ext_init : ext_state :=
  {| startDot := -1; startPart := 0; end_ := -1;
     matchedSlash := true; preDotState := 0 |}.

(** One iteration on a character that is not a path separator. *)
Definition ext_step (code : ascii) (i : Z) (st : ext_state) : ext_state :=
  let st1 :=
    if end_ st =? -1
    then {| startDot := startDot st; startPart := startPart st;
            end_ := i + 1; matchedSlash := false;
            preDotState := preDotState st |}
    else st in
  if Ascii.eqb code CHAR_DOT then
    if startDot st1 =? -1
    then {| startDot := i; startPart := startPart st1; end_ := end_ st1;
            matchedSlash := matchedSlash st1; preDotState := preDotState st1 |}
    else if negb (preDotState st1 =? 1)
    then {| startDot := startDot st1; startPart := startPart st1;
            end_ := end_ st1; matchedSlash := matchedSlash st1;
            preDotState := 1 |}
    else st1
  else if negb (startDot st1 =? -1)
  then {| startDot := startDot st1; startPart := startPart st1;
          end_ := end_ st1; matchedSlash := matchedSlash st1;
          preDotState := -1 |}
  else st1.

(** [for (let i = path.length - 1; i >= 0; --i)]: the characters are given
    last first, [i] is the index of the head. *)
Fixpoint ext_scan (rev_codes : list ascii) (i : Z) (st : ext_state)
  : ext_state :=
  match rev_codes with
  | [] => st
  | code :: rest =>
      if Ascii.eqb code CHAR_FORWARD_SLASH then
        if negb (matchedSlash st)
        then {| startDot := startDot st; startPart := i + 1;
                end_ := end_ st; matchedSlash := matchedSlash st;
                preDotState := preDotState st |}
        else ext_scan rest (i - 1) st
      else ext_scan rest (i - 1) (ext_step code i st)
  end.

(** [path.extname(p)] *)
Definition extname (p : string) : string :=
  let st := ext_scan (rev (list_ascii_of_string p)) (JS.length p - 1) ext_init in
  if (startDot st =? -1) || (end_ st =? -1) || (preDotState st =? 0)
     || ((preDotState st =? 1) && (startDot st =? end_ st - 1)
         && (startDot st =? startPart st + 1))
  then ""
  else JS.slice p (startDot st) (end_ st).

(** A location in the project tree: the segments from the project root. *)
Definition path : Type := list string.

(** The pieces of a path string between its separators. *)
Fixpoint segments (s : string) : list string :=
  match s with
  | "" => [""]
  | String c r =>
      if Ascii.eqb c CHAR_FORWARD_SLASH then "" :: segments r
      else match segments r with
           | h :: t => String c h :: t
           | [] => [String c ""]
           end
  end.

(** Normalisation of one segment onto the segments before it: empty and [.]
    segments vanish, [..] removes the segment before it when there is one. *)
Definition push_segment (acc : path) (seg : string) : path :=
  if String.eqb seg "" || String.eqb seg "." then acc
  else if String.eqb seg ".." then
    match last acc with
    | Some prev => if String.eqb prev ".." then acc ++ [seg] else removelast acc
    | None => acc ++ [seg]
    end
  else acc ++ [seg].

(** [path.join(base, rel)], normalised. *)
Definition join (base : path) (rel : string) : path :=
  fold_left push_segment (segments rel) base.

(** Whether a name has a path separator in it; the name of a directory
    entry has none. *)
Definition hasSlash (name : string) : bool :=
  existsb (fun c => Ascii.eqb c CHAR_FORWARD_SLASH) (list_ascii_of_string name).

Definition noSlashes (codes : list ascii) : Prop :=
  Forall (fun c => Ascii.eqb c CHAR_FORWARD_SLASH = false) codes.

(** The directory a location is in, and its name there. *)
Definition dirname (p : path) : path := removelast p.
Definition basename (p : path) : string := default "" (last p).

End NodePath.

(* ===================================================================== *)
(** * The world the tasks run in *)
(* ===================================================================== *)

Module Sys.

Import NodePath.

(** Text files, directories with the order in which the platform enumerates
    their entries, the archives with the files they hold, each under the
    directory it was written to and the name it was given, and the console. *)
Record World := MkWorld {
  files : gmap path string;
  dirs : gmap path (list string);
  archives : gmap (path * string) (gmap path string);
  console : list string
}.

(** The result of running a task: it completes, or an error is thrown (a
    rejected promise for an async function). *)
Inductive outcome (A : Type) : Type :=
  | Done (a : A)
  | Thrown (message : string).
Arguments Done {A} a.
Arguments Thrown {A} message.

Definition Task (A : Type) : Type := World -> outcome A * World.

Definition ret {A} (a : A) : Task A := fun w => (Done a, w).
Definition throw {A} (message : string) : Task A := fun w => (Thrown message, w).
Definition bind {A B} (m : Task A) (k : A -> Task B) : Task B :=
  fun w =>
    match m w with
    | (Done a, w1) => k a w1
    | (Thrown e, w1) => (Thrown e, w1)
    end.

Declare Scope task_scope.
Delimit Scope task_scope with task.
Notation "x <- m ;; k" := (bind m (fun x => k))
  (at level 100, m at next level, right associativity) : task_scope.
Notation "m ;; k" := (bind m (fun _ => k))
  (at level 100, right associativity) : task_scope.
Local Open Scope task_scope.

(** ** The console *)

Definition log_lines (lines : list string) (w : World) : World :=
  {| files := files w; dirs := dirs w; archives := archives w;
     console := console w ++ lines |}.

Definition console_log (line : string) : Task unit :=
  fun w => (Done tt, log_lines [line] w).

(** ** The file system *)

Definition isDirectory (w : World) (p : path) : bool :=
  bool_decide (p = []) || bool_decide (is_Some (dirs w !! p)).

(** [fs.existsSync] *)
Definition existsSync (w : World) (p : path) : bool :=
  isDirectory w p
  || bool_decide (is_Some (files w !! p))
  || bool_decide (is_Some (archives w !! (dirname p, basename p))).

(** A new entry shows up in the enumeration of its directory. *)
Definition add_name (dir : path) (name : string) (ds : gmap path (list string))
  : gmap path (list string) :=
  alter (fun names =>
           if bool_decide (name ∈ names) then names else names ++ [name])
    dir ds.

Definition add_entry (p : path) (ds : gmap path (list string))
  : gmap path (list string) :=
  add_name (dirname p) (basename p) ds.

(** [fs.readdirSync] *)
Definition readdirSync (d : path) : Task (list string) :=
  fun w =>
    match dirs w !! d with
    | Some names => (Done names, w)
    | None => (Thrown "ENOENT: no such file or directory, scandir", w)
    end.

(** [readFileAsync(p)] followed by [toString()] *)
Definition readFileAsync (p : path) : Task string :=
  fun w =>
    match files w !! p with
    | Some text => (Done text, w)
    | None => (Thrown "ENOENT: no such file or directory, open", w)
    end.

(** [writeFileAsync(p, text)]: the directory must be there, the file is
    created or overwritten. *)
Definition writeFileAsync (p : path) (text : string) : Task unit :=
  fun w =>
    if isDirectory w p
    then (Thrown "EISDIR: illegal operation on a directory, open", w)
    else if negb (isDirectory w (dirname p))
    then (Thrown "ENOENT: no such file or directory, open", w)
    else (Done tt,
          {| files := <[p := text]> (files w);
             dirs := add_entry p (dirs w);
             archives := archives w;
             console := console w |}).

(** [fs.mkdirSync(p)], not recursive. *)
Definition mkdirSync (p : path) : Task unit :=
  fun w =>
    if existsSync w p
    then (Thrown "EEXIST: file already exists, mkdir", w)
    else if negb (isDirectory w (dirname p))
    then (Thrown "ENOENT: no such file or directory, mkdir", w)
    else (Done tt,
          {| files := files w;
             dirs := <[p := []]> (add_entry p (dirs w));
             archives := archives w;
             console := console w |}).

(** ** The task runner *)

(** [gulp.series]: one task after the other, the first error ends the run. *)
Fixpoint series (tasks : list (Task unit)) : Task unit :=
  match tasks with
  | [] => ret tt
  | t :: rest => t ;; series rest
  end.

(** [gulp.parallel]: every task is started and runs to its end, the first
    error is the error of the whole.  The tasks composed here work on
    separate files, their steps are taken one task after the other. *)
Fixpoint parallel (tasks : list (Task unit)) : Task unit :=
  match tasks with
  | [] => ret tt
  | t :: rest =>
      fun w =>
        let (o, w1) := t w in
        let (o', w2) := parallel rest w1 in
        (match o with Thrown e => Thrown e | Done _ => o' end, w2)
  end.

(** A task that writes no archive. *)
Definition keepsArchives {A} (t : Task A) : Prop :=
  forall w, archives (t w).2 = archives w.

End Sys.

(* ===================================================================== *)
(** * The libraries the gulpfile calls *)
(* ===================================================================== *)

Module Lib.

Import NodePath Sys.
Local Open Scope task_scope.

(** A parsed JSON document.  A number is kept as the text it prints as. *)
#[local] Unset Elimination Schemes.
Inductive json : Type :=
  | JNull
  | JBool (b : bool)
  | JNum (text : string)
  | JStr (s : string)
  | JArr (items : list json)
  | JObj (members : list (string * json)).
#[local] Set Elimination Schemes.

(** A JavaScript value read out of a JSON document. *)
Inductive jsval : Type :=
  | Undefined
  | Val (j : json).

(** The member of an object for a key; of two members with the same key the
    later one counts. *)
Fixpoint member (key : string) (members : list (string * json)) : jsval :=
  match members with
  | [] => Undefined
  | (k, v) :: rest =>
      match member key rest with
      | Val v' => Val v'
      | Undefined => if String.eqb k key then Val v else Undefined
      end
  end.

(** [value.name] of a parsed document: an object has the member or not,
    [null] has no properties to read, the other values have no [name]. *)
Definition getName (value : json) : Task jsval :=
  match value with
  | JNull => throw "TypeError: Cannot read properties of null"
  | JObj members => ret (member "name" members)
  | _ => ret Undefined
  end.

Fixpoint joinWith (sep : string) (l : list string) : string :=
  match l with
  | [] => ""
  | [x] => x
  | x :: r => x +:+ sep +:+ joinWith sep r
  end.

(** The string a value is turned into inside a template literal. *)
Fixpoint jsonToString (j : json) : string :=
  match j with
  | JNull => "null"
  | JBool true => "true"
  | JBool false => "false"
  | JNum text => text
  | JStr s => s
  | JArr items =>
      joinWith ","
        (map (fun x => match x with JNull => "" | _ => jsonToString x end) items)
  | JObj _ => "[object Object]"
  end.

Definition toString (v : jsval) : string :=
  match v with
  | Undefined => "undefined"
  | Val j => jsonToString j
  end.

(** What [UglifyJS.minify] returns: [error] is set, or [code] is. *)
Inductive minify_result : Type :=
  | MinifyError (message : string)
  | MinifyCode (code : string).

(** What the style compiler makes of an entry file. *)
Inductive sass_result : Type :=
  | SassError (messageFormatted : string)
  | SassCss (css : string).

(** The collaborators whose code is not part of the repository. *)
Record Externals := MkExternals {
  (** the validator: its verdict for a folder and the lines it prints *)
  validateFolder : string -> World -> outcome bool * list string;
  (** the style compiler, run on an entry file of the tree *)
  sass : World -> path -> sass_result;
  (** the minifier *)
  minify : string -> minify_result;
  (** [JSON.parse], [None] for a syntax error *)
  JSON_parse : string -> option json;
  (** whether a glob pattern matches a location *)
  minimatch : string -> path -> bool
}.

(** [gulp.src(globs)]: a file is selected when a glob matches it and no
    negated glob after that one does. *)
Definition selected (match_ : string -> path -> bool) (globs : list string)
    (p : path) : bool :=
  fold_left
    (fun sel glob =>
       match glob with
       | String c pattern =>
           if Ascii.eqb c (ascii_of_nat 33)
           then sel && negb (match_ pattern p)
           else sel || match_ glob p
       | "" => sel || match_ glob p
       end)
    globs false.

Definition gulp_src (match_ : string -> path -> bool) (globs : list string)
    (w : World) : gmap path string :=
  filter (fun entry => selected match_ globs entry.1 = true) (files w).

(** [.pipe(zip(name)).pipe(gulp.dest(dir))]: the files of the stream become
    one archive of that name, written to [dir], which is created when
    missing. *)
Definition zip_dest (name : string) (dir : path) (entries : gmap path string)
  : Task unit :=
  fun w =>
    (Done tt,
     {| files := files w;
        dirs := add_name dir name
                  (if isDirectory w dir then dirs w
                   else <[dir := []]> (add_entry dir (dirs w)));
        archives := <[(dir, name) := entries]> (archives w);
        console := console w |}).

(** [.pipe(gulp.dest(dir))] of one compiled file. *)
Definition text_dest (dir : path) (name : string) (text : string) : Task unit :=
  fun w =>
    let target := join dir name in
    (Done tt,
     {| files := <[target := text]> (files w);
        dirs := add_entry target (dirs w);
        archives := archives w;
        console := console w |}).

End Lib.

(* ===================================================================== *)
(** * gulpfile.js *)
(* ===================================================================== *)

Module Gulpfile.

Import NodePath Sys Lib.
Local Open Scope task_scope.

(** The directory of the gulpfile, which is the project root, and the
    working directory gulp gives its tasks. *)
Definition __dirname : path := [].
Definition cwd : path := __dirname.

Definition scriptsDir : path := join __dirname "./scripts".

Definition scriptFiles : list path :=
  [ join scriptsDir "dpsHTMLGestureAPI.min.js";
    join scriptsDir "jquery.js";
    join scriptsDir "jquery.mobile.options.js";
    join scriptsDir "jquery.mobile.js";
    join scriptsDir "fullscreen.support.js";
    join scriptsDir "jssor.js";
    join scriptsDir "jssor.slider.js";
    join scriptsDir "slideshow.js";
    join scriptsDir "heroes.js";
    join scriptsDir "video.js" ].

Definition scssExt : string := ".scss".

(** [buildScssString] *)
Definition buildScssString (filename : string) : string :=
  ("@import " +:+ JS.dquote)
    +:+ JS.slice filename 1 (JS.length filename - JS.length scssExt)
    +:+ (JS.dquote +:+ ";" +:+ JS.nl).

(** The test guarding the body of the loop of [generateDesignFile]. *)
Definition isPartial (file : string) : bool :=
  JS.startsWith file "_" && String.eqb (extname file) scssExt.

(** The loop of [generateDesignFile] over the names [readdirSync] gave. *)
Fixpoint designLoop (files : list string) (content : string) : string :=
  match files with
  | [] => content
  | file :: rest =>
      designLoop rest
        (if isPartial file then
           if negb (String.eqb file "_common.scss")
           then content +:+ buildScssString file
           else buildScssString file +:+ content
         else content)
  end.

Definition banner : string :=
  "/* " +:+ JS.nl
  +:+ " * This file has been generated while building the components package. " +:+ JS.nl
  +:+ " * PLEASE DO NOT MODIFY THIS FILE BY HAND. " +:+ JS.nl
  +:+ " */" +:+ JS.nl.

(** The text [generateDesignFile] writes for a directory listing. *)
Definition designContent (files : list string) : string :=
  banner +:+ designLoop files "".

(** ** The words of the specification for the style aggregator *)

(** A qualifying partial: a name that begins with the underscore prefix and
    ends with the style-partial extension. *)
Definition qualifying (name : string) : bool :=
  JS.startsWith name "_" && JS.endsWith name ".scss".

(** The designated common partial. *)
Definition isCommon (name : string) : bool := String.eqb name "_common.scss".

(** The import directive for a reference. *)
Definition importLine (ref : string) : string :=
  "@import " +:+ JS.dquote +:+ ref +:+ JS.dquote +:+ ";" +:+ JS.nl.

Definition stylesdir : path := join __dirname "./components/styles".

(** The generated style entry file. *)
Definition designScss : path := join stylesdir "design.scss".

(** The tree once the entry file has been written for a listing. *)
Definition withDesignFile (names : list string) (w : World) : World :=
  {| files := <[designScss := designContent names]> (files w);
     dirs := add_entry designScss (dirs w);
     archives := archives w;
     console := console w |}.

(** [generateDesignFile] *)
Definition generateDesignFile : Task unit :=
  names <- readdirSync stylesdir ;;
  writeFileAsync (join stylesdir "design.scss") (designContent names).

(** The loop of [generateVendorScript]: [content] grows by each file's text
    and a line feed. *)
Fixpoint concatScripts (scripts : list path) (content : string) : Task string :=
  match scripts with
  | [] => ret content
  | script :: rest =>
      text <- readFileAsync script ;;
      concatScripts rest (content +:+ text +:+ JS.nl)
  end.

Definition targetFolder : path := join cwd "./components/scripts".

(** The manifest of the component set; the glob of the archive step for the
    files of the components folder and the glob it excludes. *)
Definition manifestJson : path :=
  join __dirname "./components/components-definition.json".
Definition componentsGlob : string := "components/**/*".
Definition markerGlob : string := "components/**/tms-timestamp".

Section WithExternals.

Context (ext : Externals).

(** [validateNoBail] *)
Definition validateNoBail : Task unit :=
  _ <- (fun w =>
          let (o, lines) := validateFolder ext "./components" w in
          (o, log_lines lines w)) ;;
  ret tt.

(** [validate] *)
Definition validate : Task unit :=
  valid <- (fun w =>
              let (o, lines) := validateFolder ext "./components" w in
              (o, log_lines lines w)) ;;
  if negb valid
  then throw "Package failed validation. See errors above."
  else ret tt.

(** [compileDesignFile]: the entry file is generated, then piped through
    the style compiler into the styles directory; a compile error goes to
    [sass.logError], which prints it.  The stream is run where the task
    starts it. *)
Definition compileDesignFile : Task unit :=
  generateDesignFile ;;
  fun w =>
    match sass ext w (join cwd "./components/styles/design.scss") with
    | SassError message => console_log message w
    | SassCss css => text_dest (join cwd "./components/styles/") "design.css" css w
    end.

(** The part of [generateVendorScript] after the loop. *)
Definition uglifyAndWrite (content : string) : Task unit :=
  match minify ext content with
  | MinifyError message => throw message
  | MinifyCode code =>
      (fun w => if negb (existsSync w targetFolder)
                then mkdirSync targetFolder w
                else ret tt w) ;;
      writeFileAsync (join targetFolder "vendor.js") code
  end.

(** [generateVendorScript] *)
Definition generateVendorScript : Task unit :=
  content <- concatScripts scriptFiles "" ;;
  uglifyAndWrite content.

(** [require('./components/components-definition.json')] *)
Definition requireManifest : Task json :=
  fun w =>
    match files w !! manifestJson with
    | None => (Thrown "Cannot find module", w)
    | Some text =>
        match JSON_parse ext text with
        | None => (Thrown "SyntaxError", w)
        | Some j => (Done j, w)
        end
    end.

(** [buildComponentSetZip] *)
Definition buildComponentSetZip : Task unit :=
  manifest <- requireManifest ;;
  name <- getName manifest ;;
  fun w =>
    zip_dest (toString name +:+ ".zip") (join cwd "dist")
      (gulp_src (minimatch ext)
         ["components/**/*"; "!components/**/tms-timestamp"] w) w.

(** [watch]: the watcher reports that it is ready, then every change to the
    components folder is followed by a run of [gulp.series(validateNoBail)],
    whose outcome the watcher does not pass on.  [changes] are the changes
    made from outside while the watcher is on. *)
Fixpoint watching (changes : list (World -> World)) : Task unit :=
  match changes with
  | [] => ret tt
  | change :: rest =>
      fun w =>
        let (_, w1) := series [validateNoBail] (change w) in
        watching rest w1
  end.

Definition watch (changes : list (World -> World)) : Task unit :=
  console_log "Watching for changes in components folder..." ;;
  watching changes.

(** [build] *)
Definition build : Task unit :=
  series [ parallel [compileDesignFile; generateVendorScript];
           validate;
           buildComponentSetZip ].

(** [dev] *)
Definition dev (changes : list (World -> World)) : Task unit :=
  series [ parallel [compileDesignFile; generateVendorScript];
           watch changes ].

End WithExternals.

End Gulpfile.

(* ===================================================================== *)
(** * A sample project *)
(* ===================================================================== *)

Module Sample.

Import NodePath Sys Lib Gulpfile.

Definition styleNames : list string :=
  ["_hero.scss"; "readme.md"; "_common.scss"; "_card.scss"; "mixins.scss"].

Definition tree : World :=
  {| files :=
       list_to_map
         [ (["components"; "components-definition.json"], "acme-widgets");
           (["components"; "tms-timestamp"], "1700000000");
           (["components"; "styles"; "_hero.scss"], "h1 { color: $main; }");
           (["components"; "styles"; "_common.scss"], "$main: red;");
           (["components"; "styles"; "_card.scss"], "div { color: $main; }");
           (["components"; "styles"; "mixins.scss"], "");
           (["components"; "styles"; "readme.md"], "styles");
           (["scripts"; "dpsHTMLGestureAPI.min.js"], "var a=1;");
           (["scripts"; "jquery.js"], "var b=2;");
           (["scripts"; "jquery.mobile.options.js"], "var c=3;");
           (["scripts"; "jquery.mobile.js"], "var d=4;");
           (["scripts"; "fullscreen.support.js"], "var e=5;");
           (["scripts"; "jssor.js"], "var f=6;");
           (["scripts"; "jssor.slider.js"], "var g=7;");
           (["scripts"; "slideshow.js"], "var h=8;");
           (["scripts"; "heroes.js"], "var i=9;");
           (["scripts"; "video.js"], "var j=10;") ];
     dirs :=
       list_to_map
         [ (["components"],
            ["components-definition.json"; "styles"; "tms-timestamp"]);
           (["components"; "styles"], styleNames);
           (["scripts"],
            ["dpsHTMLGestureAPI.min.js"; "jquery.js"; "jquery.mobile.options.js";
             "jquery.mobile.js"; "fullscreen.support.js"; "jssor.js";
             "jssor.slider.js"; "slideshow.js"; "heroes.js"; "video.js"]) ];
     archives := ∅;
     console := [] |}.

(** The same project with other texts in its partials. *)
Definition tree' : World :=
  {| files := <[ ["components"; "styles"; "_hero.scss"] := "h2 { margin: 0; }" ]>
                (files tree);
     dirs := dirs tree;
     archives := archives tree;
     console := ["earlier run"] |}.

(** A styles directory without partials. *)
Definition bare : World :=
  {| files := files tree;
     dirs := <[ ["components"; "styles"] := ["readme.md"; "mixins.scss"; "_notes.txt"] ]>
               (dirs tree);
     archives := ∅;
     console := [] |}.

(** A stand-in for the glob matcher, for the two patterns of the archive
    step. *)
Definition underComponents (p : path) : bool :=
  match p with
  | dir :: _ :: _ => String.eqb dir "components"
  | _ => false
  end.

Definition toyMatch (pattern : string) (p : path) : bool :=
  if String.eqb pattern componentsGlob then underComponents p
  else if String.eqb pattern markerGlob
  then underComponents p && bool_decide (last p = Some "tms-timestamp")
  else false.

(** Stand-ins for the collaborators: a validator with a fixed verdict, a
    style compiler and a minifier that pass their input on or fail, and a
    manifest reader that takes the text of the manifest for the name. *)
Definition collaborators (valid stylesOk scriptsOk : bool) : Externals :=
  {| validateFolder := fun _ _ => (Done valid, ["validation finished"]);
     sass := fun w p =>
               match files w !! p with
               | Some text =>
                   if stylesOk then SassCss text
                   else SassError "Undefined variable"
               | None => SassError "File to import not found"
               end;
     minify := fun content =>
                 if scriptsOk then MinifyCode content
                 else MinifyError "Unexpected token";
     JSON_parse := fun text => Some (JObj [("name", JStr text)]);
     minimatch := toyMatch |}.

Definition passing : Externals := collaborators true true true.
Definition invalid : Externals := collaborators false true true.
Definition badStyles : Externals := collaborators true false true.
Definition badScripts : Externals := collaborators true true false.

(** Changes made while the watcher is on. *)
Definition edits : list (World -> World) :=
  [log_lines ["a file changed"]; fun w => w].

Definition scriptTexts : list string :=
  ["var a=1;"; "var b=2;"; "var c=3;"; "var d=4;"; "var e=5;";
   "var f=6;"; "var g=7;"; "var h=8;"; "var i=9;"; "var j=10;"].

End Sample.

(* ===================================================================== *)
(** * The generated artifacts *)
(* ===================================================================== *)

Module Artifacts.

Import NodePath Sys Lib Gulpfile.

(** The compiled stylesheet and the vendor script bundle. *)
Definition designCss : path :=
  join (join cwd "./components/styles/") "design.css".
Definition vendorJs : path := join targetFolder "vendor.js".

(** The folder [generateVendorScript] makes when it is missing, and the
    tree with the bundle written. *)
Definition withTargetFolder (w : World) : World :=
  if existsSync w targetFolder then w
  else {| files := files w;
          dirs := <[targetFolder := []]> (add_entry targetFolder (dirs w));
          archives := archives w;
          console := console w |}.

Definition withVendorScript (code : string) (w : World) : World :=
  {| files := <[vendorJs := code]> (files (withTargetFolder w));
     dirs := add_entry vendorJs (dirs (withTargetFolder w));
     archives := archives w;
     console := console w |}.

(** The target folder is there, or it can be made. *)
Definition targetReady (w : World) : Prop :=
  is_Some (dirs w !! targetFolder)
  \/ (existsSync w targetFolder = false
      /\ is_Some (dirs w !! dirname targetFolder)).

(** A change from outside that writes no archive. *)
Definition leavesArchives (change : World -> World) : Prop :=
  forall w, archives (change w) = archives w.

(** A task that leaves the text at a location as it is. *)
Definition keepsFile {A} (p : path) (t : Task A) : Prop :=
  forall w, files (t w).2 !! p = files w !! p.

End Artifacts.

(* ===================================================================== *)
(** * More sample projects *)
(* ===================================================================== *)

Module Sample2.

Import NodePath Sys Lib Gulpfile.

(** The sample project without its styles directory. *)
Definition noStyles : World :=
  {| files := files Sample.tree;
     dirs := delete ["components"; "styles"] (dirs Sample.tree);
     archives := ∅;
     console := [] |}.

(** The sample project with one of the scripts missing. *)
Definition noSlider : World :=
  {| files := delete ["scripts"; "jssor.slider.js"] (files Sample.tree);
     dirs := dirs Sample.tree;
     archives := ∅;
     console := [] |}.

(** Scripts without a components folder beside them. *)
Definition scriptsOnly : World :=
  {| files := files Sample.tree;
     dirs := delete ["components"] (dirs Sample.tree);
     archives := ∅;
     console := [] |}.

(** The sample project without its manifest. *)
Definition noManifest : World :=
  {| files := delete ["components"; "components-definition.json"]
                (files Sample.tree);
     dirs := dirs Sample.tree;
     archives := ∅;
     console := [] |}.

(** Collaborators whose manifest reader finds an object without a name. *)
Definition nameless : Externals :=
  {| validateFolder := validateFolder Sample.passing;
     sass := sass Sample.passing;
     minify := minify Sample.passing;
     JSON_parse := fun _ => Some (JObj [("version", JStr "1.0")]);
     minimatch := minimatch Sample.passing |}.

(** Collaborators whose validator fails with an error of its own. *)
Definition crashing : Externals :=
  {| validateFolder := fun _ _ => (Thrown "validator crashed", ["reading folder"]);
     sass := sass Sample.passing;
     minify := minify Sample.passing;
     JSON_parse := JSON_parse Sample.passing;
     minimatch := minimatch Sample.passing |}.

End Sample2.

(* ===================================================================== *)
(** * Facts about strings *)
(* ===================================================================== *)

Module StringFacts.

Lemma app_nil_l (s : string) : "" +:+ s = s.
Proof. reflexivity. Qed.

Lemma app_cons (c : ascii) (s t : string) :
  String c s +:+ t = String c (s +:+ t).
Proof. reflexivity. Qed.

Lemma app_nil_r (s : string) : s +:+ "" = s.
Proof. induction s as [|c s IH]; [reflexivity|]. rewrite app_cons, IH. reflexivity. Qed.

Lemma app_assoc (s t u : string) : (s +:+ t) +:+ u = s +:+ (t +:+ u).
Proof.
  induction s as [|c s IH]; [reflexivity|].
  rewrite !app_cons, IH. reflexivity.
Qed.

Lemma length_app (s t : string) :
  String.length (s +:+ t) = (String.length s + String.length t)%nat.
Proof.
  induction s as [|c s IH]; [reflexivity|].
  rewrite app_cons. simpl. rewrite IH. reflexivity.
Qed.

Lemma substring_0_0 (s : string) : String.substring 0 0 s = "".
Proof. destruct s; reflexivity. Qed.

(** Taking as many characters as the first part has gives the first part. *)
Lemma substring_app_head (s t : string) :
  String.substring 0 (String.length s) (s +:+ t) = s.
Proof.
  induction s as [|c s IH].
  - apply substring_0_0.
  - rewrite app_cons. simpl. rewrite IH. reflexivity.
Qed.

(** Skipping the first part. *)
Lemma substring_app_skip (s t : string) (m : nat) :
  String.substring (String.length s) m (s +:+ t) = String.substring 0 m t.
Proof.
  induction s as [|c s IH]; [reflexivity|].
  rewrite app_cons. simpl. exact IH.
Qed.

Lemma substring_all (s : string) : String.substring 0 (String.length s) s = s.
Proof.
  induction s as [|c s IH]; [reflexivity|]. simpl. rewrite IH. reflexivity.
Qed.

(** A substring that runs to the end of the string is a suffix of it. *)
Lemma substring_to_end (s : string) (n m : nat) :
  (n <= String.length s)%nat -> (String.length s <= n + m)%nat ->
  exists u, s = u +:+ String.substring n m s /\ String.length u = n.
Proof.
  revert n m. induction s as [|c s IH]; intros n m Hn Hm.
  - simpl in Hn. assert (n = 0)%nat as -> by lia. exists "". split; [|reflexivity].
    destruct m; reflexivity.
  - destruct n as [|n].
    + exists "". split; [|reflexivity]. rewrite app_nil_l.
      simpl in Hm. destruct m as [|m]; [lia|]. simpl.
      destruct (IH 0%nat m) as (u & Hu & Hlen); [lia|lia|].
      destruct u; [|discriminate]. rewrite app_nil_l in Hu. rewrite <- Hu.
      reflexivity.
    + simpl in Hn, Hm. destruct (IH n m) as (u & Hu & Hlen); [lia|lia|].
      exists (String c u). split; [|simpl; lia].
      rewrite app_cons. simpl. rewrite <- Hu. reflexivity.
Qed.

Lemma list_ascii_app (s t : string) :
  list_ascii_of_string (s +:+ t)
  = (list_ascii_of_string s ++ list_ascii_of_string t)%list.
Proof.
  induction s as [|c s IH]; [reflexivity|].
  rewrite app_cons. simpl. rewrite IH. reflexivity.
Qed.

Lemma length_list_ascii (s : string) :
  List.length (list_ascii_of_string s) = String.length s.
Proof. induction s as [|c s IH]; simpl; [reflexivity|]. rewrite IH. reflexivity. Qed.

Lemma prefix_cons (c : ascii) (s : string) :
  String.prefix (String c "") s = true -> exists t, s = String c t.
Proof.
  destruct s as [|d s]; simpl; [discriminate|].
  destruct (ascii_dec c d) as [->|]; [|discriminate]. eauto.
Qed.

(** The pieces of an accumulated string. *)
Lemma concat_app (l1 l2 : list string) :
  JS.concat (l1 ++ l2) = JS.concat l1 +:+ JS.concat l2.
Proof.
  induction l1 as [|x l1 IH]; simpl; [reflexivity|].
  rewrite IH, app_assoc. reflexivity.
Qed.

Lemma concat_repeat_comm (x : string) (n : nat) :
  JS.concat (repeat x n) +:+ x = x +:+ JS.concat (repeat x n).
Proof.
  induction n as [|n IH]; simpl.
  - rewrite app_nil_l, app_nil_r. reflexivity.
  - rewrite app_assoc, IH. reflexivity.
Qed.

End StringFacts.

(* ===================================================================== *)
(** * Facts about [path.extname] *)
(* ===================================================================== *)

Module PathFacts.

Import NodePath StringFacts.

Lemma hasSlash_false (name : string) :
  hasSlash name = false -> noSlashes (rev (list_ascii_of_string name)).
Proof.
  unfold hasSlash, noSlashes. intros H.
  apply List.Forall_forall. intros c Hc. apply in_rev in Hc.
  destruct (Ascii.eqb c CHAR_FORWARD_SLASH) eqn:E; [|reflexivity].
  assert (existsb (fun c => Ascii.eqb c CHAR_FORWARD_SLASH)
            (list_ascii_of_string name) = true) as Hex.
  { apply existsb_exists. exists c. auto. }
  congruence.
Qed.

Lemma ext_scan_cons (c : ascii) (r : list ascii) (i : Z) (st : ext_state) :
  Ascii.eqb c CHAR_FORWARD_SLASH = false ->
  ext_scan (c :: r) i st = ext_scan r (i - 1) (ext_step c i st).
Proof. intros H. simpl. rewrite H. reflexivity. Qed.

(** The last character of the name, when it is not a dot, fixes the end. *)
Lemma ext_step_first (c : ascii) (i : Z) (st : ext_state) :
  Ascii.eqb c CHAR_DOT = false -> end_ st = -1 -> startDot st = -1 ->
  ext_step c i st
  = {| startDot := startDot st; startPart := startPart st; end_ := i + 1;
       matchedSlash := false; preDotState := preDotState st |}.
Proof.
  intros Hc He Hd. unfold ext_step. rewrite He, Hc. simpl. rewrite Hd.
  reflexivity.
Qed.

(** A character of the extension changes nothing. *)
Lemma ext_step_name (c : ascii) (i : Z) (st : ext_state) :
  Ascii.eqb c CHAR_DOT = false -> startDot st = -1 -> end_ st <> -1 ->
  ext_step c i st = st.
Proof.
  intros Hc Hd He. unfold ext_step. apply Z.eqb_neq in He.
  rewrite He, Hc, Hd. reflexivity.
Qed.

(** The first dot met starts the extension. *)
Lemma ext_step_dot (i : Z) (st : ext_state) :
  startDot st = -1 -> end_ st <> -1 ->
  ext_step CHAR_DOT i st
  = {| startDot := i; startPart := startPart st; end_ := end_ st;
       matchedSlash := matchedSlash st; preDotState := preDotState st |}.
Proof.
  intros Hd He. unfold ext_step. apply Z.eqb_neq in He.
  rewrite He. change (Ascii.eqb CHAR_DOT CHAR_DOT) with true. cbv iota.
  rewrite Hd. reflexivity.
Qed.

(** Once the extension's dot and the end of the name are known, an iteration
    only records whether the character before is a dot. *)
Lemma ext_step_after_dot (c : ascii) (i : Z) (st : ext_state) :
  startDot st <> -1 -> end_ st <> -1 ->
  ext_step c i st
  = {| startDot := startDot st; startPart := startPart st; end_ := end_ st;
       matchedSlash := matchedSlash st;
       preDotState := if Ascii.eqb c CHAR_DOT then 1 else -1 |}.
Proof.
  intros Hd He. unfold ext_step.
  apply Z.eqb_neq in Hd, He. rewrite He, Hd. simpl.
  destruct (Ascii.eqb c CHAR_DOT); [|reflexivity].
  destruct (Z.eqb_spec (preDotState st) 1) as [E|E]; simpl; [|reflexivity].
  destruct st; simpl in *. subst. reflexivity.
Qed.

Lemma ext_scan_after_dot (r : list ascii) :
  forall (i : Z) (st : ext_state),
    noSlashes r -> startDot st <> -1 -> end_ st <> -1 ->
    ext_scan r i st
    = {| startDot := startDot st; startPart := startPart st; end_ := end_ st;
         matchedSlash := matchedSlash st;
         preDotState := match last r with
                        | None => preDotState st
                        | Some c => if Ascii.eqb c CHAR_DOT then 1 else -1
                        end |}.
Proof.
  induction r as [|c r IH]; intros i st Hr Hd He.
  - destruct st; reflexivity.
  - inversion Hr as [|? ? Hc Hr']; subst. simpl ext_scan. rewrite Hc.
    rewrite (ext_step_after_dot _ _ _ Hd He).
    rewrite IH by (simpl; assumption). simpl startDot. simpl startPart.
    simpl end_. simpl matchedSlash. simpl preDotState.
    rewrite last_cons. destruct (last r); reflexivity.
Qed.

(** With no separator in the name, the end of the extension is the end of
    the name. *)
Lemma end_ext_step (c : ascii) (i : Z) (st : ext_state) :
  end_ (ext_step c i st) = if end_ st =? -1 then i + 1 else end_ st.
Proof.
  unfold ext_step.
  destruct (end_ st =? -1); simpl;
    repeat match goal with
           | |- context [if ?b then _ else _] => destruct b; simpl
           end; reflexivity.
Qed.

Lemma ext_scan_end (r : list ascii) :
  forall (i : Z) (st : ext_state),
    noSlashes r -> Z.of_nat (List.length r) <= i + 1 ->
    end_ (ext_scan r i st)
    = if end_ st =? -1
      then match r with [] => -1 | _ => i + 1 end
      else end_ st.
Proof.
  induction r as [|c r IH]; intros i st Hr Hi.
  - simpl. destruct (Z.eqb_spec (end_ st) (-1)); congruence.
  - inversion Hr as [|? ? Hc Hr']; subst. simpl ext_scan. rewrite Hc.
    simpl List.length in Hi.
    rewrite IH by (assumption || lia). rewrite end_ext_step.
    destruct (Z.eqb_spec (end_ st) (-1)) as [E|E].
    + destruct (Z.eqb_spec (i + 1) (-1)); [lia|reflexivity].
    + destruct (Z.eqb_spec (end_ st) (-1)); [contradiction|reflexivity].
Qed.

(** A string ends with a suffix exactly when it is something followed by
    the suffix. *)
Lemma endsWith_iff (s p : string) :
  JS.endsWith s p = true <-> exists u, s = u +:+ p.
Proof.
  unfold JS.endsWith. split.
  - intros H. apply andb_true_iff in H as [Hle Heq].
    apply Nat.leb_le in Hle. apply String.eqb_eq in Heq.
    destruct (substring_to_end s (String.length s - String.length p)
                (String.length p)) as (u & Hu & _); [lia|lia|].
    exists u. rewrite Heq in Hu. exact Hu.
  - intros [u ->]. rewrite length_app. apply andb_true_iff. split.
    + apply Nat.leb_le. lia.
    + replace (String.length u + String.length p - String.length p)%nat
        with (String.length u) by lia.
      rewrite substring_app_skip, substring_all. apply String.eqb_refl.
Qed.

(** A slice that runs to the end of the string is a suffix of it. *)
Lemma slice_to_end (s : string) (b : Z) :
  exists u, s = u +:+ JS.slice s b (JS.length s).
Proof.
  unfold JS.slice, JS.length.
  set (len := Z.of_nat (String.length s)).
  assert (0 <= len) as Hlen by (unfold len; lia).
  destruct (Z.ltb_spec len 0) as [E|_]; [lia|].
  set (from := if b <? 0 then Z.max (len + b) 0 else Z.min b len).
  assert (0 <= from <= len) as Hfrom.
  { unfold from. destruct (b <? 0) eqn:E; [lia|].
    apply Z.ltb_ge in E. lia. }
  destruct (substring_to_end s (Z.to_nat from)
              (Z.to_nat (Z.max (Z.min len len - from) 0))) as (u & Hu & _).
  - unfold len in *. lia.
  - unfold len in *. lia.
  - exists u. exact Hu.
Qed.

(** For the name of a directory entry that starts with an underscore,
    having the extension [.scss] is ending with [.scss]. *)
Lemma extname_scss (name : string) :
  hasSlash name = false -> JS.startsWith name "_" = true ->
  (String.eqb (extname name) ".scss" = true <-> JS.endsWith name ".scss" = true).
Proof.
  intros Hs Hp. apply hasSlash_false in Hs.
  destruct (prefix_cons _ _ Hp) as [t ->]. rewrite endsWith_iff. split.
  - intros H. apply String.eqb_eq in H. unfold extname in H.
    match type of H with
    | (if ?b then _ else _) = _ => destruct b; [discriminate|]
    end.
    rewrite ext_scan_end in H;
      [|assumption|rewrite length_rev, length_list_ascii; unfold JS.length; lia].
    change (end_ ext_init =? -1) with true in H. cbv iota in H.
    destruct (rev (list_ascii_of_string (String "_" t))) eqn:E.
    { apply (f_equal (@List.length _)) in E.
      rewrite length_rev in E. discriminate. }
    clear E.
    replace (JS.length (String "_" t) - 1 + 1)
      with (JS.length (String "_" t)) in H by lia.
    destruct (slice_to_end (String "_" t)
                (startDot (ext_scan (a :: l) (JS.length (String "_" t) - 1)
                             ext_init))) as [u Hu].
    exists u. rewrite H in Hu. exact Hu.
  - intros [u Hu]. destruct u as [|c u].
    { rewrite app_nil_l in Hu. discriminate. }
    rewrite app_cons in Hu. injection Hu as <- ->.
    apply String.eqb_eq. unfold extname.
    change (String "_" (u +:+ ".scss")) with (String "_" u +:+ ".scss") in *.
    rewrite list_ascii_app in *. rewrite rev_app_distr in *.
    unfold JS.length. rewrite length_app.
    set (n := String.length (String "_" u)).
    change (String.length ".scss") with 5%nat.
    replace (Z.of_nat (n + 5) - 1) with (Z.of_nat n + 4) by lia.
    change (rev (list_ascii_of_string ".scss"))
      with [ascii_of_nat 115; ascii_of_nat 115; ascii_of_nat 99;
            ascii_of_nat 115; CHAR_DOT] in *.
    apply Forall_app in Hs as [_ Hs].
    assert (ext_scan
              ([ascii_of_nat 115; ascii_of_nat 115; ascii_of_nat 99;
                ascii_of_nat 115; CHAR_DOT]
               ++ rev (list_ascii_of_string (String "_" u)))
              (Z.of_nat n + 4) ext_init
            = ext_scan (rev (list_ascii_of_string (String "_" u)))
                (Z.of_nat n + 4 - 1 - 1 - 1 - 1 - 1)
                {| startDot := Z.of_nat n + 4 - 1 - 1 - 1 - 1; startPart := 0;
                   end_ := Z.of_nat n + 4 + 1; matchedSlash := false;
                   preDotState := 0 |}) as ->.
    { unfold app.
      rewrite ext_scan_cons by reflexivity.
      rewrite ext_step_first by reflexivity.
      do 3 (rewrite ext_scan_cons by reflexivity;
            rewrite ext_step_name by (reflexivity || (simpl; lia))).
      rewrite ext_scan_cons by reflexivity.
      rewrite ext_step_dot by (reflexivity || (simpl; lia)).
      reflexivity. }
    rewrite ext_scan_after_dot; [|assumption|simpl; lia|simpl; lia].
    simpl list_ascii_of_string. simpl rev. rewrite last_snoc.
    cbn -[Z.add Z.sub Z.of_nat n JS.slice String.app].
    destruct (Z.eqb_spec (Z.of_nat n + 4 - 1 - 1 - 1 - 1) (-1)) as [E|_]; [lia|].
    destruct (Z.eqb_spec (Z.of_nat n + 4 + 1) (-1)) as [E|_]; [lia|].
    cbn -[Z.add Z.sub Z.of_nat n JS.slice String.app].
    unfold JS.slice, JS.length. rewrite length_app. fold n.
    change (String.length ".scss") with 5%nat.
    destruct (Z.ltb_spec (Z.of_nat n + 4 - 1 - 1 - 1 - 1) 0) as [E|_]; [lia|].
    destruct (Z.ltb_spec (Z.of_nat n + 4 + 1) 0) as [E|_]; [lia|].
    replace (Z.to_nat (Z.min (Z.of_nat n + 4 - 1 - 1 - 1 - 1) (Z.of_nat (n + 5))))
      with n by lia.
    replace (Z.to_nat _) with 5%nat by lia.
    unfold n. rewrite substring_app_skip. reflexivity.
Qed.

End PathFacts.

(* ===================================================================== *)
(** * The style aggregator *)
(* ===================================================================== *)

Module Design.

Import NodePath Sys Lib Gulpfile StringFacts PathFacts.

(** The partials of the specification's example, listed with the common
    one in the middle. *)
Example designContent_example :
  designContent ["_hero.scss"; "_common.scss"; "notes.txt"; "_card.scss"]
  = banner +:+ importLine "common" +:+ importLine "hero" +:+ importLine "card".
Proof. reflexivity. Qed.

Example extname_examples :
  map extname ["_hero.scss"; "_.scss"; ".scss"; "_a.scss.bak"; "_scss"; "a/_b.scss/"]
  = [".scss"; ".scss"; ""; ".bak"; ""; ".scss"].
Proof. reflexivity. Qed.

(** Without the restriction to names of directory entries the extension
    test and the ends-with test differ. *)
Example isPartial_with_separator :
  isPartial "_a.scss/" = true /\ qualifying "_a.scss/" = false.
Proof. split; reflexivity. Qed.

(** The code's test agrees with the specification's words on the names of
    directory entries. *)
Lemma isPartial_qualifying (name : string) :
  hasSlash name = false -> isPartial name = qualifying name.
Proof.
  intros Hs. unfold isPartial, qualifying.
  destruct (JS.startsWith name "_") eqn:Hp; [|reflexivity]. simpl.
  pose proof (extname_scss name Hs Hp) as H. unfold scssExt.
  destruct (String.eqb (extname name) ".scss"), (JS.endsWith name ".scss");
    try reflexivity; intuition congruence.
Qed.

Lemma filter_isPartial (P : string -> bool) (names : list string) :
  Forall (fun name => hasSlash name = false) names ->
  List.filter (fun name => isPartial name && P name) names
  = List.filter (fun name => qualifying name && P name) names.
Proof.
  induction 1 as [|name names Hs _ IH]; [reflexivity|].
  simpl. rewrite (isPartial_qualifying _ Hs), IH. reflexivity.
Qed.

Lemma isPartial_common : isPartial "_common.scss" = true.
Proof. vm_compute. reflexivity. Qed.

(** The loop puts the lines of the common partial before what it started
    from, and the lines of the other partials after it, in the order of the
    listing. *)
Lemma designLoop_shape (names : list string) :
  forall content : string,
    designLoop names content
    = JS.concat (repeat (buildScssString "_common.scss")
                   (List.length (List.filter isCommon names)))
      +:+ content
      +:+ JS.concat
            (map buildScssString
               (List.filter (fun name => isPartial name && negb (isCommon name))
                  names)).
Proof.
  induction names as [|name names IH]; intros content.
  - simpl. rewrite app_nil_l, app_nil_r. reflexivity.
  - simpl designLoop. rewrite IH. simpl List.filter.
    change (String.eqb name "_common.scss") with (isCommon name).
    destruct (isCommon name) eqn:E.
    + unfold isCommon in E. apply String.eqb_eq in E. subst name.
      rewrite isPartial_common. simpl.
      rewrite <- !app_assoc. rewrite concat_repeat_comm. reflexivity.
    + destruct (isPartial name); simpl; [|reflexivity].
      rewrite !app_assoc. reflexivity.
Qed.

(** What a run of [generateDesignFile] does. *)
Lemma generateDesignFile_run (w : World) (names : list string) :
  dirs w !! stylesdir = Some names ->
  dirs w !! designScss = None ->
  generateDesignFile w = (Done tt, withDesignFile names w).
Proof.
  intros Hdir Hfile. unfold generateDesignFile, bind, readdirSync.
  rewrite Hdir. unfold writeFileAsync, isDirectory.
  fold designScss. rewrite Hfile.
  change (dirname designScss) with stylesdir. rewrite Hdir.
  reflexivity.
Qed.

(** The reference of an import line is the name without its underscore
    and its extension. *)
Lemma buildScssString_strips (name : string) :
  qualifying name = true ->
  exists ref, name = "_" +:+ ref +:+ ".scss"
              /\ buildScssString name = importLine ref.
Proof.
  unfold qualifying. intros H. apply andb_true_iff in H as [Hp He].
  destruct (prefix_cons _ _ Hp) as [t ->].
  apply endsWith_iff in He as [u Hu]. destruct u as [|c u].
  { rewrite app_nil_l in Hu. discriminate. }
  rewrite app_cons in Hu. injection Hu as <- ->.
  exists u. split; [reflexivity|].
  unfold buildScssString, importLine. rewrite !app_assoc.
  do 2 f_equal. f_equal.
  unfold JS.slice, JS.length, scssExt. simpl String.length.
  rewrite length_app. simpl String.length.
  destruct (Z.ltb_spec (Z.of_nat (S (String.length u + 5)) - Z.of_nat 5) 0)
    as [E|_]; [lia|].
  change (1 <? 0) with false. cbv iota.
  replace (Z.to_nat (Z.min 1 (Z.of_nat (S (String.length u + 5))))) with 1%nat
    by lia.
  replace (Z.to_nat _) with (String.length u) by lia.
  simpl String.substring. apply substring_app_head.
Qed.

Lemma qualifying_common : qualifying "_common.scss" = true.
Proof. reflexivity. Qed.

Lemma buildScssString_common : buildScssString "_common.scss" = importLine "common".
Proof. reflexivity. Qed.

(** The partials are the common one and the others. *)
Lemma partials_split (names : list string) :
  Permutation
    (List.filter isCommon names
     ++ List.filter (fun name => qualifying name && negb (isCommon name)) names)
    (List.filter qualifying names).
Proof.
  induction names as [|name names IH]; [constructor|].
  simpl. destruct (isCommon name) eqn:E.
  - unfold isCommon in E. apply String.eqb_eq in E. subst name.
    rewrite qualifying_common. simpl. constructor. exact IH.
  - rewrite andb_true_r. destruct (qualifying name); [|exact IH].
    symmetry. apply Permutation_cons_app. symmetry. exact IH.
Qed.

Lemma filter_isCommon (names : list string) :
  List.filter isCommon names
  = repeat "_common.scss" (List.length (List.filter isCommon names)).
Proof.
  induction names as [|name names IH]; [reflexivity|].
  simpl. destruct (isCommon name) eqn:E; [|exact IH].
  unfold isCommon in E. apply String.eqb_eq in E. subst name.
  simpl. f_equal. exact IH.
Qed.

Lemma map_repeat {A B} (f : A -> B) (x : A) (n : nat) :
  map f (repeat x n) = repeat (f x) n.
Proof. induction n as [|n IH]; simpl; [reflexivity|]. rewrite IH. reflexivity. Qed.

(** A directory lists the common partial once. *)
Lemma common_once (names : list string) :
  NoDup names -> In "_common.scss" names ->
  List.length (List.filter isCommon names) = 1%nat.
Proof.
  induction 1 as [|name names Hnot Hnd IH]; intros Hin; [destruct Hin|].
  simpl. destruct (isCommon name) eqn:E.
  - unfold isCommon in E. apply String.eqb_eq in E. subst name. simpl. f_equal.
    destruct (List.filter isCommon names) as [|x l] eqn:F; [reflexivity|].
    exfalso. apply Hnot. apply list_elem_of_In.
    assert (In x (List.filter isCommon names)) as Hx by (rewrite F; left; reflexivity).
    apply filter_In in Hx as [Hx Hc]. unfold isCommon in Hc.
    apply String.eqb_eq in Hc. subst x. exact Hx.
  - destruct Hin as [->|Hin]; [|exact (IH Hin)].
    unfold isCommon in E. rewrite String.eqb_refl in E. discriminate.
Qed.

Lemma common_listed (names : list string) :
  In "_common.scss" names ->
  exists k, List.length (List.filter isCommon names) = S k.
Proof.
  intros Hin.
  assert (In "_common.scss" (List.filter isCommon names)) as H.
  { apply filter_In. split; [exact Hin|reflexivity]. }
  destruct (List.filter isCommon names) as [|x l]; [destruct H|].
  exists (List.length l). reflexivity.
Qed.

(** C1: when the listing of the styles directory has the common partial,
    the generated entry file is the banner, then the import line of the
    common partial, then the import lines of the other qualifying partials
    in the order of the listing, wherever the common partial stands in the
    listing; a listing without repeated names has that first line once. *)
Theorem common_partial_first (w : World) (names : list string) :
  dirs w !! stylesdir = Some names ->
  dirs w !! designScss = None ->
  Forall (fun name => hasSlash name = false) names ->
  In "_common.scss" names ->
  exists (k : nat) (w' : World),
    generateDesignFile w = (Done tt, w')
    /\ files w' !! designScss
       = Some (banner
               +:+ importLine "common"
               +:+ JS.concat (repeat (importLine "common") k)
               +:+ JS.concat
                     (map buildScssString
                        (List.filter
                           (fun name => qualifying name && negb (isCommon name))
                           names)))
    /\ (NoDup names -> k = 0%nat).
Proof.
  intros Hdir Hfile Hs Hin.
  destruct (common_listed names Hin) as [k Hk].
  exists k. eexists. split; [apply generateDesignFile_run; eassumption|].
  split.
  - simpl files. rewrite lookup_insert_eq. f_equal.
    unfold designContent. rewrite designLoop_shape, Hk.
    rewrite (filter_isPartial (fun name => negb (isCommon name)) names Hs).
    rewrite buildScssString_common, app_nil_l. simpl repeat. simpl JS.concat.
    rewrite !app_assoc. reflexivity.
  - intros Hnd. pose proof (common_once names Hnd Hin) as H1. lia.
Qed.

(** C2: the generated entry file is the banner followed by import lines,
    one for each entry of the listing that starts with an underscore and
    ends with [.scss] and none for another entry; the line of an entry,
    the text [buildScssString] makes for it, refers to the entry's name
    without the underscore and the extension. *)
Theorem import_lines_exact (w : World) (names : list string) :
  dirs w !! stylesdir = Some names ->
  dirs w !! designScss = None ->
  Forall (fun name => hasSlash name = false) names ->
  exists (lines : list string) (w' : World),
    generateDesignFile w = (Done tt, w')
    /\ files w' !! designScss = Some (banner +:+ JS.concat lines)
    /\ Permutation lines (map buildScssString (List.filter qualifying names))
    /\ (forall name, In name names -> qualifying name = true ->
        exists ref, name = "_" +:+ ref +:+ ".scss"
                    /\ buildScssString name = importLine ref).
Proof.
  intros Hdir Hfile Hs.
  exists (map buildScssString
            (List.filter isCommon names
             ++ List.filter (fun name => qualifying name && negb (isCommon name))
                  names)).
  eexists. split; [apply generateDesignFile_run; eassumption|].
  split; [|split].
  - simpl files. rewrite lookup_insert_eq. f_equal.
    unfold designContent. rewrite designLoop_shape.
    rewrite (filter_isPartial (fun name => negb (isCommon name)) names Hs).
    rewrite app_nil_l, map_app, concat_app.
    rewrite (filter_isCommon names) at 2. rewrite map_repeat. reflexivity.
  - apply Permutation_map, partials_split.
  - intros name _ Hq. apply buildScssString_strips, Hq.
Qed.

(** C9: for a listing without a qualifying partial the entry file is still
    written, and it holds the banner and nothing else. *)
Theorem no_partials_banner_only (w : World) (names : list string) :
  dirs w !! stylesdir = Some names ->
  dirs w !! designScss = None ->
  Forall (fun name => hasSlash name = false) names ->
  (forall name, In name names -> qualifying name = false) ->
  exists w' : World,
    generateDesignFile w = (Done tt, w')
    /\ files w' !! designScss = Some banner.
Proof.
  intros Hdir Hfile Hs Hnone.
  eexists. split; [apply generateDesignFile_run; eassumption|].
  simpl files. rewrite lookup_insert_eq. f_equal.
  unfold designContent. rewrite designLoop_shape.
  rewrite (filter_isPartial (fun name => negb (isCommon name)) names Hs).
  assert (forall P, List.filter (fun name => qualifying name && P name) names = [])
    as Hempty.
  { intros P. clear Hdir Hs. induction names as [|name names IH]; [reflexivity|].
    simpl. rewrite (Hnone name) by (left; reflexivity). simpl.
    apply IH. intros n Hn. apply Hnone. right. exact Hn. }
  rewrite Hempty.
  assert (List.filter isCommon names = []) as ->.
  { destruct (List.filter isCommon names) as [|x l] eqn:F; [reflexivity|].
    assert (In x (List.filter isCommon names)) as Hx by (rewrite F; left; reflexivity).
    apply filter_In in Hx as [Hx Hc]. unfold isCommon in Hc.
    apply String.eqb_eq in Hc. subst x.
    pose proof qualifying_common as Q. rewrite (Hnone _ Hx) in Q.
    discriminate. }
  simpl. rewrite !app_nil_r. reflexivity.
Qed.

(** C10: two runs over trees whose styles directory is listed alike write
    the same text to the entry file, whatever else the trees hold; the
    texts of the partials play no part. *)
Theorem design_content_determined (w1 w2 : World) (names : list string) :
  dirs w1 !! stylesdir = Some names ->
  dirs w2 !! stylesdir = Some names ->
  dirs w1 !! designScss = None ->
  dirs w2 !! designScss = None ->
  exists w1' w2' : World,
    generateDesignFile w1 = (Done tt, w1')
    /\ generateDesignFile w2 = (Done tt, w2')
    /\ files w1' !! designScss = Some (designContent names)
    /\ files w2' !! designScss = files w1' !! designScss.
Proof.
  intros Hd1 Hd2 Hf1 Hf2. do 2 eexists.
  split; [apply generateDesignFile_run; eassumption|].
  split; [apply generateDesignFile_run; eassumption|].
  simpl files. rewrite !lookup_insert_eq. split; reflexivity.
Qed.

(** The hypotheses and the conclusion of C1 on the sample project. *)
Lemma common_partial_first_witness :
  In "_common.scss" Sample.styleNames
  /\ exists (k : nat) (w' : World),
       generateDesignFile Sample.tree = (Done tt, w')
       /\ files w' !! designScss
          = Some (banner
                  +:+ importLine "common"
                  +:+ JS.concat (repeat (importLine "common") k)
                  +:+ JS.concat
                        (map buildScssString
                           (List.filter
                              (fun name => qualifying name && negb (isCommon name))
                              Sample.styleNames)))
       /\ (NoDup Sample.styleNames -> k = 0%nat).
Proof.
  assert (In "_common.scss" Sample.styleNames) as Hin by (simpl; tauto).
  split; [exact Hin|].
  apply (common_partial_first Sample.tree Sample.styleNames);
    [vm_compute; reflexivity | vm_compute; reflexivity
    | repeat constructor | exact Hin].
Defined.

Lemma import_lines_exact_witness :
  exists (lines : list string) (w' : World),
    generateDesignFile Sample.tree = (Done tt, w')
    /\ files w' !! designScss = Some (banner +:+ JS.concat lines)
    /\ Permutation lines
         (map buildScssString (List.filter qualifying Sample.styleNames))
    /\ (forall name, In name Sample.styleNames -> qualifying name = true ->
        exists ref, name = "_" +:+ ref +:+ ".scss"
                    /\ buildScssString name = importLine ref).
Proof.
  apply (import_lines_exact Sample.tree Sample.styleNames);
    [vm_compute; reflexivity | vm_compute; reflexivity | repeat constructor].
Defined.

Lemma no_partials_banner_only_witness :
  exists w' : World,
    generateDesignFile Sample.bare = (Done tt, w')
    /\ files w' !! designScss = Some banner.
Proof.
  apply (no_partials_banner_only Sample.bare
           ["readme.md"; "mixins.scss"; "_notes.txt"]);
    [vm_compute; reflexivity | vm_compute; reflexivity | repeat constructor |].
  intros name Hin. simpl in Hin.
  destruct Hin as [<-|[<-|[<-|[]]]]; reflexivity.
Defined.

Lemma design_content_determined_witness :
  files Sample.tree <> files Sample.tree'
  /\ exists w1' w2' : World,
       generateDesignFile Sample.tree = (Done tt, w1')
       /\ generateDesignFile Sample.tree' = (Done tt, w2')
       /\ files w1' !! designScss = Some (designContent Sample.styleNames)
       /\ files w2' !! designScss = files w1' !! designScss.
Proof.
  split.
  - intros H.
    apply (f_equal (fun m => m !! ["components"; "styles"; "_hero.scss"])) in H.
    vm_compute in H. discriminate.
  - apply (design_content_determined Sample.tree Sample.tree' Sample.styleNames);
      vm_compute; reflexivity.
Defined.

End Design.

(* ===================================================================== *)
(** * The vendor script bundler *)
(* ===================================================================== *)

Module Vendor.

Import NodePath Sys Lib Gulpfile StringFacts.

(** The loop reads every script, changes nothing, and appends each text
    with its line feed to what it started from. *)
Lemma concatScripts_run (w : World) (scripts : list path) :
  forall (texts : list string) (content : string),
    Forall2 (fun script text => files w !! script = Some text) scripts texts ->
    concatScripts scripts content w
    = (Done (content +:+ JS.concat (map (fun text => text +:+ JS.nl) texts)), w).
Proof.
  induction scripts as [|script scripts IH]; intros texts content H.
  - apply Forall2_nil_inv_l in H as ->. simpl. rewrite app_nil_r. reflexivity.
  - apply Forall2_cons_inv_l in H as (text & texts' & Hr & H & ->).
    simpl concatScripts. unfold bind, readFileAsync. rewrite Hr.
    rewrite (IH texts' _ H). simpl map. simpl JS.concat.
    rewrite !app_assoc. reflexivity.
Qed.

Lemma vendor_concat_in_order_aux (ext : Externals) (w : World)
    (texts : list string) :
  Forall2 (fun script text => files w !! script = Some text) scriptFiles texts ->
  generateVendorScript ext w
  = uglifyAndWrite ext (JS.concat (map (fun text => text +:+ JS.nl) texts)) w.
Proof.
  intros H. pose proof (concatScripts_run w scriptFiles texts "" H) as Hrun.
  rewrite app_nil_l in Hrun.
  unfold generateVendorScript, bind. rewrite Hrun. reflexivity.
Qed.

(** C3: for a list of scripts that can all be read, the text handed to the
    minifier is the texts of the scripts, each once, in the order of the
    list, each followed by a line feed; this holds for the configured list
    of [generateVendorScript]. *)
Theorem vendor_concat_in_order (ext : Externals) (w : World)
    (scripts : list path) (texts : list string) :
  Forall2 (fun script text => files w !! script = Some text) scripts texts ->
  concatScripts scripts "" w
  = (Done (JS.concat (map (fun text => text +:+ JS.nl) texts)), w)
  /\ (scripts = scriptFiles ->
      generateVendorScript ext w
      = uglifyAndWrite ext
          (JS.concat (map (fun text => text +:+ JS.nl) texts)) w).
Proof.
  intros H. pose proof (concatScripts_run w scripts texts "" H) as Hrun.
  rewrite app_nil_l in Hrun. split; [exact Hrun|].
  intros ->. apply vendor_concat_in_order_aux, H.
Qed.

Lemma vendor_concat_in_order_witness :
  concatScripts scriptFiles "" Sample.tree
  = (Done (JS.concat (map (fun text => text +:+ JS.nl) Sample.scriptTexts)),
     Sample.tree)
  /\ (scriptFiles = scriptFiles ->
      generateVendorScript Sample.passing Sample.tree
      = uglifyAndWrite Sample.passing
          (JS.concat (map (fun text => text +:+ JS.nl) Sample.scriptTexts))
          Sample.tree).
Proof.
  apply (vendor_concat_in_order Sample.passing
           Sample.tree scriptFiles Sample.scriptTexts).
  repeat (constructor; [vm_compute; reflexivity|]). constructor.
Defined.

(** C4: when the minifier reports an error for the concatenated scripts,
    [generateVendorScript] throws an error with the minifier's message and
    leaves the tree as it was: no folder is made and no file is written. *)
Theorem minify_error_no_write (ext : Externals) (w : World)
    (texts : list string) (message : string) :
  Forall2 (fun script text => files w !! script = Some text) scriptFiles texts ->
  minify ext (JS.concat (map (fun text => text +:+ JS.nl) texts))
  = MinifyError message ->
  generateVendorScript ext w = (Thrown message, w)
  /\ files (generateVendorScript ext w).2 !! join targetFolder "vendor.js"
     = files w !! join targetFolder "vendor.js".
Proof.
  intros Hread Hmin.
  rewrite (vendor_concat_in_order_aux ext w texts Hread). unfold uglifyAndWrite. rewrite Hmin. split; reflexivity.
Qed.

Lemma minify_error_no_write_witness :
  generateVendorScript Sample.badScripts Sample.tree
  = (Thrown "Unexpected token", Sample.tree)
  /\ files (generateVendorScript Sample.badScripts
              Sample.tree).2 !! join targetFolder "vendor.js"
     = files Sample.tree !! join targetFolder "vendor.js".
Proof.
  apply (minify_error_no_write Sample.badScripts
           Sample.tree Sample.scriptTexts "Unexpected token").
  - repeat (constructor; [vm_compute; reflexivity|]). constructor.
  - reflexivity.
Defined.

End Vendor.

(* ===================================================================== *)
(** * Validation and the pipelines *)
(* ===================================================================== *)

Module Pipeline.

Import NodePath Sys Lib Gulpfile StringFacts Design.

(** ** Tasks that write no archive *)

Create HintDb keeps.

Lemma keeps_ret {A} (a : A) : keepsArchives (ret a).
Proof. intros w. reflexivity. Qed.

Lemma keeps_throw {A} (message : string) : keepsArchives (@throw A message).
Proof. intros w. reflexivity. Qed.

Lemma keeps_bind {A B} (m : Task A) (k : A -> Task B) :
  keepsArchives m -> (forall a, keepsArchives (k a)) -> keepsArchives (bind m k).
Proof.
  intros Hm Hk w. unfold bind. specialize (Hm w).
  destruct (m w) as [[a|e] w1]; simpl in *; [|exact Hm].
  rewrite Hk. exact Hm.
Qed.

Lemma keeps_readdirSync (d : path) : keepsArchives (readdirSync d).
Proof. intros w. unfold readdirSync. destruct (dirs w !! d); reflexivity. Qed.

Lemma keeps_readFileAsync (p : path) : keepsArchives (readFileAsync p).
Proof. intros w. unfold readFileAsync. destruct (files w !! p); reflexivity. Qed.

Lemma keeps_writeFileAsync (p : path) (text : string) :
  keepsArchives (writeFileAsync p text).
Proof.
  intros w. unfold writeFileAsync.
  destruct (isDirectory w p); [reflexivity|].
  destruct (isDirectory w (dirname p)); reflexivity.
Qed.

Lemma keeps_mkdirSync (p : path) : keepsArchives (mkdirSync p).
Proof.
  intros w. unfold mkdirSync.
  destruct (existsSync w p); [reflexivity|].
  destruct (isDirectory w (dirname p)); reflexivity.
Qed.

Lemma keeps_console_log (line : string) : keepsArchives (console_log line).
Proof. intros w. reflexivity. Qed.

Lemma keeps_text_dest (dir : path) (name text : string) :
  keepsArchives (text_dest dir name text).
Proof. intros w. reflexivity. Qed.

#[local] Hint Resolve keeps_ret keeps_throw keeps_bind keeps_readdirSync
  keeps_readFileAsync keeps_writeFileAsync keeps_mkdirSync keeps_console_log
  keeps_text_dest : keeps.

Lemma keeps_concatScripts (scripts : list path) :
  forall content, keepsArchives (concatScripts scripts content).
Proof.
  induction scripts as [|script scripts IH]; intros content; simpl;
    auto with keeps.
Qed.

Lemma keeps_generateDesignFile : keepsArchives generateDesignFile.
Proof. unfold generateDesignFile. auto with keeps. Qed.

Lemma keeps_compileDesignFile (ext : Externals) :
  keepsArchives (compileDesignFile ext).
Proof.
  unfold compileDesignFile. apply keeps_bind; [apply keeps_generateDesignFile|].
  intros _ w. destruct (sass ext w _); reflexivity.
Qed.

Lemma keeps_generateVendorScript (ext : Externals) :
  keepsArchives (generateVendorScript ext).
Proof.
  unfold generateVendorScript. apply keeps_bind; [apply keeps_concatScripts|].
  intros content. unfold uglifyAndWrite.
  destruct (minify ext content); [auto with keeps|].
  apply keeps_bind; [|auto with keeps].
  intros w. destruct (existsSync w targetFolder); simpl;
    [reflexivity|apply keeps_mkdirSync].
Qed.

Lemma keeps_parallel (tasks : list (Task unit)) :
  Forall keepsArchives tasks -> keepsArchives (parallel tasks).
Proof.
  induction 1 as [|t tasks Ht _ IH]; intros w; [reflexivity|].
  simpl. specialize (Ht w). destruct (t w) as [o w1].
  specialize (IH w1). destruct (parallel tasks w1) as [o' w2].
  simpl in *. congruence.
Qed.

(** ** The validator's call sites *)

Lemma series_cons (t : Task unit) (rest : list (Task unit)) :
  series (t :: rest) = bind t (fun _ => series rest).
Proof. reflexivity. Qed.

Lemma validate_false (ext : Externals) (w : World) (lines : list string) :
  validateFolder ext "./components" w = (Done false, lines) ->
  validate ext w
  = (Thrown "Package failed validation. See errors above.", log_lines lines w).
Proof. intros H. unfold validate, bind. rewrite H. reflexivity. Qed.

(** C5: in a run of the build in which the validator answers [false] to
    [validate], the build ends with the error of [validate]; the archive
    step is not run (whatever task stands in its place, the run is the
    same) and the archives are those from before the run. *)
Theorem failed_validation_skips_archive (ext : Externals) (w w1 : World)
    (lines : list string) :
  parallel [compileDesignFile ext; generateVendorScript ext] w = (Done tt, w1) ->
  validateFolder ext "./components" w1 = (Done false, lines) ->
  build ext w
  = (Thrown "Package failed validation. See errors above.", log_lines lines w1)
  /\ (forall archiveStep : Task unit,
        series [ parallel [compileDesignFile ext; generateVendorScript ext];
                 validate ext; archiveStep ] w
        = build ext w)
  /\ archives (build ext w).2 = archives w.
Proof.
  intros Hprep Hval.
  assert (forall archiveStep : Task unit,
            series [ parallel [compileDesignFile ext; generateVendorScript ext];
                     validate ext; archiveStep ] w
            = (Thrown "Package failed validation. See errors above.",
               log_lines lines w1)) as Hany.
  { intros z. rewrite series_cons. unfold bind at 1. rewrite Hprep.
    rewrite series_cons. unfold bind at 1.
    rewrite (validate_false ext w1 lines Hval). reflexivity. }
  assert (build ext w
          = (Thrown "Package failed validation. See errors above.",
             log_lines lines w1)) as Hbuild by apply Hany.
  split; [exact Hbuild|]. split.
  - intros z. rewrite Hbuild. apply Hany.
  - rewrite Hbuild. simpl.
    pose proof (keeps_parallel [compileDesignFile ext; generateVendorScript ext])
      as Hk.
    rewrite <- (Hk ltac:(repeat constructor;
                          [apply keeps_compileDesignFile
                          |apply keeps_generateVendorScript]) w).
    rewrite Hprep. reflexivity.
Qed.

Lemma failed_validation_skips_archive_witness :
  build Sample.invalid Sample.tree
  = (Thrown "Package failed validation. See errors above.",
     log_lines ["validation finished"]
       (parallel [compileDesignFile Sample.invalid;
                  generateVendorScript Sample.invalid] Sample.tree).2)
  /\ (forall archiveStep : Task unit,
        series [ parallel [compileDesignFile Sample.invalid;
                           generateVendorScript Sample.invalid];
                 validate Sample.invalid; archiveStep ] Sample.tree
        = build Sample.invalid Sample.tree)
  /\ archives (build Sample.invalid Sample.tree).2 = archives Sample.tree.
Proof.
  apply (failed_validation_skips_archive Sample.invalid Sample.tree
           (parallel [compileDesignFile Sample.invalid;
                      generateVendorScript Sample.invalid] Sample.tree).2
           ["validation finished"]).
  - vm_compute. reflexivity.
  - reflexivity.
Defined.

(** C8: the watch-mode call does the same for a validator that passes and
    one that fails, provided they print the same: [validateNoBail]
    completes without an error, and so does the run of the watcher over any
    changes. *)
Theorem watch_ignores_verdict (ext1 ext2 : Externals) :
  (forall dir w, exists (b1 b2 : bool) (lines : list string),
      validateFolder ext1 dir w = (Done b1, lines)
      /\ validateFolder ext2 dir w = (Done b2, lines)) ->
  forall (changes : list (World -> World)) (w : World),
    validateNoBail ext1 w = validateNoBail ext2 w
    /\ (validateNoBail ext1 w).1 = Done tt
    /\ watch ext1 changes w = watch ext2 changes w
    /\ (watch ext1 changes w).1 = Done tt.
Proof.
  intros Hsame.
  assert (forall w, validateNoBail ext1 w = validateNoBail ext2 w
                    /\ (validateNoBail ext1 w).1 = Done tt) as Hcall.
  { intros w. destruct (Hsame "./components" w) as (b1 & b2 & lines & H1 & H2).
    unfold validateNoBail, bind. rewrite H1, H2. split; reflexivity. }
  assert (forall changes w,
            watching ext1 changes w = watching ext2 changes w
            /\ (watching ext1 changes w).1 = Done tt) as Hloop.
  { induction changes as [|change changes IH]; intros w; [split; reflexivity|].
    simpl. unfold bind. destruct (Hcall (change w)) as [<- _].
    destruct (validateNoBail ext1 (change w)) as [[[]|e] w1]; apply IH. }
  intros changes w. destruct (Hcall w) as [H1 H2].
  split; [exact H1|]. split; [exact H2|].
  unfold watch, bind. simpl. apply Hloop.
Qed.

Lemma watch_ignores_verdict_witness :
  validateNoBail Sample.passing Sample.tree
  = validateNoBail Sample.invalid Sample.tree
  /\ (validateNoBail Sample.passing Sample.tree).1 = Done tt
  /\ watch Sample.passing Sample.edits Sample.tree
     = watch Sample.invalid Sample.edits Sample.tree
  /\ (watch Sample.passing Sample.edits Sample.tree).1 = Done tt.
Proof.
  apply (watch_ignores_verdict Sample.passing Sample.invalid).
  intros dir w. exists true, false, ["validation finished"].
  split; reflexivity.
Defined.

(** ** Style compilation inside the pipeline *)

(** A task that completes first among parallel tasks leaves the outcome of
    the stage to the other. *)
Lemma parallel_after_done (t u : Task unit) (k : Task unit) (w w1 : World) :
  t w = (Done tt, w1) ->
  bind (parallel [t; u]) (fun _ => k) w = bind u (fun _ => k) w1.
Proof.
  intros Ht. unfold bind. simpl. rewrite Ht.
  destruct (u w1) as [[[]|e] w2]; reflexivity.
Qed.

(** C7: when the style compiler reports an error for the generated entry
    file, [compileDesignFile] logs the message and completes; the build goes
    on with the vendor script, the validation and the archive as after a
    compilation without an error. *)
Theorem compile_error_logged (ext : Externals) (w : World)
    (names : list string) (message : string) :
  dirs w !! stylesdir = Some names ->
  dirs w !! designScss = None ->
  sass ext (withDesignFile names w) designScss = SassError message ->
  compileDesignFile ext w
  = (Done tt, log_lines [message] (withDesignFile names w))
  /\ build ext w
     = series [generateVendorScript ext; validate ext; buildComponentSetZip ext]
         (log_lines [message] (withDesignFile names w)).
Proof.
  intros Hdir Hfile Hsass.
  assert (compileDesignFile ext w
          = (Done tt, log_lines [message] (withDesignFile names w))) as Hc.
  { unfold compileDesignFile, bind.
    rewrite (generateDesignFile_run w names Hdir Hfile).
    change (join cwd "./components/styles/design.scss") with designScss.
    rewrite Hsass. reflexivity. }
  split; [exact Hc|].
  unfold build. rewrite !series_cons.
  apply (parallel_after_done _ _ _ _ _ Hc).
Qed.

Lemma compile_error_logged_witness :
  compileDesignFile Sample.badStyles Sample.tree
  = (Done tt,
     log_lines ["Undefined variable"]
       (withDesignFile Sample.styleNames Sample.tree))
  /\ build Sample.badStyles Sample.tree
     = series [ generateVendorScript Sample.badStyles;
                validate Sample.badStyles;
                buildComponentSetZip Sample.badStyles ]
         (log_lines ["Undefined variable"]
            (withDesignFile Sample.styleNames Sample.tree)).
Proof.
  apply (compile_error_logged Sample.badStyles Sample.tree Sample.styleNames
           "Undefined variable");
    vm_compute; reflexivity.
Defined.

(** ** The archive step *)

(** The files [gulp.src] gives for the globs of the archive step. *)
Lemma selected_archive_globs (match_ : string -> path -> bool) (p : path) :
  selected match_ ["components/**/*"; "!components/**/tms-timestamp"] p
  = match_ componentsGlob p && negb (match_ markerGlob p).
Proof. reflexivity. Qed.



End Pipeline.

(* ===================================================================== *)
(** * Facts about the world *)
(* ===================================================================== *)

Module WorldFacts.

Import NodePath Sys Lib Gulpfile Artifacts.

Lemma add_name_idemp (dir : path) (name : string)
    (ds : gmap path (list string)) :
  add_name dir name (add_name dir name ds) = add_name dir name ds.
Proof.
  unfold add_name. rewrite alter_alter_eq. apply alter_ext.
  intros names _. simpl. destruct (bool_decide (name ∈ names)) eqn:E.
  - rewrite E. reflexivity.
  - rewrite bool_decide_eq_true_2; [reflexivity|].
    apply elem_of_app. right. apply list_elem_of_singleton. reflexivity.
Qed.

Lemma add_name_None (dir : path) (name : string)
    (ds : gmap path (list string)) (p : path) :
  ds !! p = None -> add_name dir name ds !! p = None.
Proof.
  intros H. unfold add_name. rewrite lookup_alter.
  case_decide; [subst; rewrite H; reflexivity|exact H].
Qed.

Lemma add_name_is_Some (dir : path) (name : string)
    (ds : gmap path (list string)) (p : path) :
  is_Some (ds !! p) -> is_Some (add_name dir name ds !! p).
Proof.
  intros [names H]. unfold add_name. rewrite lookup_alter.
  case_decide; [subst; rewrite H; simpl; eauto|eauto].
Qed.

(** ** Tasks and the files they leave alone *)

Create HintDb frame.

Lemma frame_ret {A} (p : path) (a : A) : keepsFile p (ret a).
Proof. intros w. reflexivity. Qed.

Lemma frame_throw {A} (p : path) (message : string) :
  keepsFile p (@throw A message).
Proof. intros w. reflexivity. Qed.

Lemma frame_bind {A B} (p : path) (m : Task A) (k : A -> Task B) :
  keepsFile p m -> (forall a, keepsFile p (k a)) -> keepsFile p (bind m k).
Proof.
  intros Hm Hk w. unfold bind. specialize (Hm w).
  destruct (m w) as [[a|e] w1]; simpl in *; [|exact Hm].
  rewrite Hk. exact Hm.
Qed.

Lemma frame_readdirSync (p d : path) : keepsFile p (readdirSync d).
Proof. intros w. unfold readdirSync. destruct (dirs w !! d); reflexivity. Qed.

Lemma frame_readFileAsync (p q : path) : keepsFile p (readFileAsync q).
Proof. intros w. unfold readFileAsync. destruct (files w !! q); reflexivity. Qed.

Lemma frame_console_log (p : path) (line : string) :
  keepsFile p (console_log line).
Proof. intros w. reflexivity. Qed.

Lemma frame_writeFileAsync (p q : path) (text : string) :
  p <> q -> keepsFile p (writeFileAsync q text).
Proof.
  intros Hne w. unfold writeFileAsync.
  destruct (isDirectory w q); [reflexivity|].
  destruct (isDirectory w (dirname q)); simpl; [|reflexivity].
  apply lookup_insert_ne. congruence.
Qed.

Lemma frame_mkdirSync (p q : path) : keepsFile p (mkdirSync q).
Proof.
  intros w. unfold mkdirSync.
  destruct (existsSync w q); [reflexivity|].
  destruct (isDirectory w (dirname q)); reflexivity.
Qed.

Lemma frame_text_dest (p dir : path) (name text : string) :
  p <> join dir name -> keepsFile p (text_dest dir name text).
Proof. intros Hne w. simpl. apply lookup_insert_ne. congruence. Qed.

Lemma frame_zip_dest (p dir : path) (name : string)
    (entries : gmap path string) :
  keepsFile p (zip_dest name dir entries).
Proof. intros w. reflexivity. Qed.

#[local] Hint Resolve frame_ret frame_throw frame_bind frame_readdirSync
  frame_readFileAsync frame_console_log frame_writeFileAsync frame_mkdirSync
  frame_text_dest frame_zip_dest : frame.

Lemma frame_concatScripts (p : path) (scripts : list path) :
  forall content, keepsFile p (concatScripts scripts content).
Proof.
  induction scripts as [|script scripts IH]; intros content; simpl;
    auto with frame.
Qed.

Lemma frame_generateDesignFile (p : path) :
  p <> designScss -> keepsFile p generateDesignFile.
Proof. intros Hne. unfold generateDesignFile. auto with frame. Qed.

Lemma frame_compileDesignFile (ext : Externals) (p : path) :
  p <> designScss -> p <> designCss -> keepsFile p (compileDesignFile ext).
Proof.
  intros Hs Hc. unfold compileDesignFile.
  apply frame_bind; [apply frame_generateDesignFile, Hs|].
  intros _ w. destruct (sass ext w _); [reflexivity|].
  apply frame_text_dest. exact Hc.
Qed.

Lemma frame_generateVendorScript (ext : Externals) (p : path) :
  p <> vendorJs -> keepsFile p (generateVendorScript ext).
Proof.
  intros Hne. unfold generateVendorScript.
  apply frame_bind; [apply frame_concatScripts|].
  intros content. unfold uglifyAndWrite.
  destruct (minify ext content); [auto with frame|].
  apply frame_bind; [|intros _; apply frame_writeFileAsync, Hne].
  intros w. destruct (existsSync w targetFolder); simpl;
    [reflexivity|apply frame_mkdirSync].
Qed.

Lemma frame_validator (ext : Externals) (p : path) :
  keepsFile p (fun w => let (o, lines) := validateFolder ext "./components" w in
                        (o, log_lines lines w)).
Proof. intros w. destruct (validateFolder ext "./components" w). reflexivity. Qed.

Lemma frame_validate (ext : Externals) (p : path) : keepsFile p (validate ext).
Proof.
  unfold validate. apply frame_bind; [apply frame_validator|].
  intros [|]; simpl; auto with frame.
Qed.

Lemma frame_validateNoBail (ext : Externals) (p : path) :
  keepsFile p (validateNoBail ext).
Proof.
  unfold validateNoBail. apply frame_bind; [apply frame_validator|].
  auto with frame.
Qed.

Lemma frame_buildComponentSetZip (ext : Externals) (p : path) :
  keepsFile p (buildComponentSetZip ext).
Proof.
  unfold buildComponentSetZip. apply frame_bind.
  - intros w. unfold requireManifest.
    destruct (files w !! manifestJson); [|reflexivity].
    destruct (JSON_parse ext _); reflexivity.
  - intros j. apply frame_bind.
    + destruct j; simpl; auto with frame.
    + intros v w. reflexivity.
Qed.

Lemma frame_parallel (p : path) (tasks : list (Task unit)) :
  Forall (keepsFile p) tasks -> keepsFile p (parallel tasks).
Proof.
  induction 1 as [|t tasks Ht _ IH]; intros w; [reflexivity|].
  simpl. specialize (Ht w). destruct (t w) as [o w1].
  specialize (IH w1). destruct (parallel tasks w1) as [o' w2].
  simpl in *. congruence.
Qed.

Lemma frame_series (p : path) (tasks : list (Task unit)) :
  Forall (keepsFile p) tasks -> keepsFile p (series tasks).
Proof.
  induction 1 as [|t tasks Ht _ IH]; simpl; auto with frame.
Qed.

End WorldFacts.

(* ===================================================================== *)
(** * More about the style aggregator *)
(* ===================================================================== *)

Module DesignMore.

Import NodePath Sys Lib Gulpfile Artifacts StringFacts PathFacts Design
  WorldFacts.

(** A common tail can be taken off both sides of an equation. *)
Lemma app_inv_tail (t : string) :
  forall s s' : string, s +:+ t = s' +:+ t -> s = s'.
Proof.
  intros s s' H.
  assert (String.length s = String.length s') as Hlen.
  { apply (f_equal String.length) in H. rewrite !length_app in H. lia. }
  revert s' H Hlen. induction s as [|c s IH]; intros [|c' s'] H Hlen;
    try discriminate; [reflexivity|].
  rewrite !app_cons in H. injection H as -> H. f_equal.
  apply IH; [exact H|]. simpl in Hlen. lia.
Qed.

Lemma importLine_inj (r r' : string) : importLine r = importLine r' -> r = r'.
Proof.
  unfold importLine. intros H.
  apply (inj (String.app "@import ")) in H.
  apply (inj (String.app JS.dquote)) in H.
  exact (app_inv_tail _ _ _ H).
Qed.



(** X2: two different qualifying partials get different import lines. *)
Theorem buildScssString_distinct (a b : string) :
  qualifying a = true -> qualifying b = true ->
  a <> b -> buildScssString a <> buildScssString b.
Proof.
  intros Ha Hb Hne H. apply Hne.
  destruct (buildScssString_strips a Ha) as (ra & -> & Hra).
  destruct (buildScssString_strips b Hb) as (rb & -> & Hrb).
  rewrite Hra, Hrb in H. apply importLine_inj in H. subst rb. reflexivity.
Qed.

Lemma buildScssString_distinct_witness :
  buildScssString "_hero.scss" <> buildScssString "_card.scss".
Proof.
  apply (buildScssString_distinct "_hero.scss" "_card.scss");
    [reflexivity | reflexivity | discriminate].
Defined.

(** Names that do not qualify can share an import line: the stripping goes
    by position. *)
Example buildScssString_shared :
  buildScssString "Xhero12345" = buildScssString "_hero.scss".
Proof. reflexivity. Qed.

(** The entries that do not pass the test of the loop play no part. *)
Lemma designLoop_filter (names : list string) :
  forall content : string,
    designLoop names content = designLoop (List.filter isPartial names) content.
Proof.
  induction names as [|name names IH]; intros content; [reflexivity|].
  simpl List.filter. simpl designLoop at 1.
  destruct (isPartial name) eqn:E.
  - simpl designLoop. rewrite E. apply IH.
  - apply IH.
Qed.

(** X3: the text of the entry file depends on the entries that pass the
    test of the loop only: two listings with the same such entries in the
    same order give the same text, whatever else they list. *)
Theorem designContent_partials_only (names names' : list string) :
  List.filter isPartial names = List.filter isPartial names' ->
  designContent names = designContent names'.
Proof.
  intros H. unfold designContent.
  rewrite (designLoop_filter names), (designLoop_filter names'), H.
  reflexivity.
Qed.

Lemma designContent_partials_only_witness :
  designContent Sample.styleNames
  = designContent ["_hero.scss"; "_common.scss"; "design.css"; "_card.scss"].
Proof.
  apply (designContent_partials_only Sample.styleNames
           ["_hero.scss"; "_common.scss"; "design.css"; "_card.scss"]).
  reflexivity.
Defined.

(** X4: without a styles directory [generateDesignFile] throws, and so does
    [compileDesignFile], which does not get to the style compiler; nothing
    is written or printed. *)
Theorem missing_styles_directory (ext : Externals) (w : World) :
  dirs w !! stylesdir = None ->
  exists e : string,
    generateDesignFile w = (Thrown e, w)
    /\ compileDesignFile ext w = (Thrown e, w).
Proof.
  intros H. eexists.
  assert (generateDesignFile w
          = (Thrown "ENOENT: no such file or directory, scandir", w)) as Hg.
  { unfold generateDesignFile, bind, readdirSync. rewrite H. reflexivity. }
  split; [exact Hg|].
  unfold compileDesignFile, bind. rewrite Hg. reflexivity.
Qed.

Lemma missing_styles_directory_witness :
  exists e : string,
    generateDesignFile Sample2.noStyles = (Thrown e, Sample2.noStyles)
    /\ compileDesignFile Sample.badStyles Sample2.noStyles
       = (Thrown e, Sample2.noStyles).
Proof.
  apply (missing_styles_directory Sample.badStyles Sample2.noStyles).
  vm_compute. reflexivity.
Defined.

(** ** Writing the entry file again *)

(** The entry file in a listing changes nothing for the text. *)
Lemma designContent_with_entry_file (names : list string) :
  designContent
    (if bool_decide ("design.scss" ∈ names) then names
     else names ++ ["design.scss"])
  = designContent names.
Proof.
  destruct (bool_decide ("design.scss" ∈ names)); [reflexivity|].
  unfold designContent.
  rewrite (designLoop_filter (names ++ ["design.scss"])), List.filter_app.
  simpl List.filter. change (isPartial "design.scss") with false. cbv iota.
  rewrite List.app_nil_r, <- designLoop_filter. reflexivity.
Qed.

(** X5: generating the entry file again changes nothing: the entry file
    itself, now in the listing, is not taken for a partial, and the second
    run writes the same text to the same place. *)
Theorem generateDesignFile_again (w : World) (names : list string) :
  dirs w !! stylesdir = Some names ->
  dirs w !! designScss = None ->
  exists w1 : World,
    generateDesignFile w = (Done tt, w1)
    /\ generateDesignFile w1 = (Done tt, w1).
Proof.
  intros Hdir Hfile. exists (withDesignFile names w).
  split; [apply generateDesignFile_run; assumption|].
  set (names' := if bool_decide ("design.scss" ∈ names) then names
                 else names ++ ["design.scss"]).
  rewrite (generateDesignFile_run (withDesignFile names w) names').
  - f_equal. unfold withDesignFile. simpl. f_equal.
    + rewrite insert_insert_eq. unfold names'.
      rewrite designContent_with_entry_file. reflexivity.
    + apply add_name_idemp.
  - simpl. unfold add_entry, add_name. rewrite lookup_alter.
    change (dirname designScss) with stylesdir. rewrite decide_True by reflexivity.
    rewrite Hdir. reflexivity.
  - simpl. apply add_name_None, Hfile.
Qed.

Lemma generateDesignFile_again_witness :
  exists w1 : World,
    generateDesignFile Sample.tree = (Done tt, w1)
    /\ generateDesignFile w1 = (Done tt, w1).
Proof.
  apply (generateDesignFile_again Sample.tree Sample.styleNames);
    vm_compute; reflexivity.
Defined.

End DesignMore.

(* ===================================================================== *)
(** * More about the vendor script bundler *)
(* ===================================================================== *)

Module VendorMore.

Import NodePath Sys Lib Gulpfile Artifacts StringFacts Vendor WorldFacts.

Lemma isDirectory_Some (w : World) (p : path) :
  is_Some (dirs w !! p) -> isDirectory w p = true.
Proof.
  intros H. unfold isDirectory. rewrite (bool_decide_eq_true_2 _ H).
  apply orb_true_r.
Qed.

Lemma isDirectory_None (w : World) (p : path) :
  p <> [] -> dirs w !! p = None -> isDirectory w p = false.
Proof.
  intros Hp H. unfold isDirectory. rewrite H.
  rewrite bool_decide_eq_false_2 by exact Hp.
  rewrite bool_decide_eq_false_2 by (intros [x Hx]; discriminate).
  reflexivity.
Qed.

Lemma withTargetFolder_files (w : World) :
  files (withTargetFolder w) = files w.
Proof. unfold withTargetFolder. destruct (existsSync w targetFolder); reflexivity. Qed.

Lemma withTargetFolder_made (w : World) :
  targetReady w -> is_Some (dirs (withTargetFolder w) !! targetFolder).
Proof.
  intros [H|[He _]]; unfold withTargetFolder.
  - destruct (existsSync w targetFolder); [exact H|].
    simpl. rewrite lookup_insert_eq. eauto.
  - rewrite He. simpl. rewrite lookup_insert_eq. eauto.
Qed.

Lemma withTargetFolder_vendorJs (w : World) :
  dirs w !! vendorJs = None -> dirs (withTargetFolder w) !! vendorJs = None.
Proof.
  intros H. unfold withTargetFolder.
  destruct (existsSync w targetFolder); [exact H|].
  simpl. rewrite lookup_insert_ne by discriminate.
  apply add_name_None, H.
Qed.

(** What the second half of [generateVendorScript] does when the minifier
    gives code and the target folder is there or can be made. *)
Lemma uglifyAndWrite_run (ext : Externals) (w : World) (content code : string) :
  minify ext content = MinifyCode code ->
  dirs w !! vendorJs = None ->
  targetReady w ->
  uglifyAndWrite ext content w = (Done tt, withVendorScript code w).
Proof.
  intros Hmin Hv Hready. unfold uglifyAndWrite. rewrite Hmin. unfold bind.
  unfold withVendorScript, withTargetFolder.
  destruct Hready as [Hdir|[Hex Hparent]].
  - assert (existsSync w targetFolder = true) as Hex.
    { unfold existsSync. rewrite (isDirectory_Some w _ Hdir). reflexivity. }
    rewrite Hex. simpl. unfold writeFileAsync.
    fold vendorJs. rewrite (isDirectory_None w vendorJs) by (discriminate || exact Hv).
    change (dirname vendorJs) with targetFolder.
    rewrite (isDirectory_Some w _ Hdir). reflexivity.
  - rewrite Hex. simpl. unfold mkdirSync. rewrite Hex.
    rewrite (isDirectory_Some w _ Hparent). simpl. unfold writeFileAsync.
    fold vendorJs. rewrite isDirectory_None.
    + change (dirname vendorJs) with targetFolder.
      rewrite isDirectory_Some by (simpl; rewrite lookup_insert_eq; eauto).
      reflexivity.
    + discriminate.
    + simpl. rewrite lookup_insert_ne by discriminate. apply add_name_None, Hv.
Qed.

(** X6: when the scripts can be read, the minifier gives code and the
    target folder is there or can be made, [generateVendorScript] completes;
    the bundle then holds the minifier's code, whatever it held before, the
    target folder is there, no other file is changed and nothing is
    printed. *)
Theorem vendor_script_written (ext : Externals) (w : World)
    (texts : list string) (code : string) :
  Forall2 (fun script text => files w !! script = Some text) scriptFiles texts ->
  minify ext (JS.concat (map (fun text => text +:+ JS.nl) texts))
  = MinifyCode code ->
  dirs w !! vendorJs = None ->
  targetReady w ->
  exists w' : World,
    generateVendorScript ext w = (Done tt, w')
    /\ files w' !! vendorJs = Some code
    /\ is_Some (dirs w' !! targetFolder)
    /\ (forall p, p <> vendorJs -> files w' !! p = files w !! p)
    /\ console w' = console w.
Proof.
  intros Hread Hmin Hv Hready. exists (withVendorScript code w).
  split; [|split; [|split; [|split]]].
  - rewrite (vendor_concat_in_order_aux ext w texts Hread).
    apply uglifyAndWrite_run; assumption.
  - simpl. apply lookup_insert_eq.
  - simpl. apply add_name_is_Some, withTargetFolder_made, Hready.
  - intros p Hp. simpl. rewrite lookup_insert_ne by congruence.
    rewrite withTargetFolder_files. reflexivity.
  - reflexivity.
Qed.

Lemma vendor_script_written_witness :
  exists w' : World,
    generateVendorScript Sample.passing Sample.tree = (Done tt, w')
    /\ files w' !! vendorJs
       = Some (JS.concat (map (fun text => text +:+ JS.nl) Sample.scriptTexts))
    /\ is_Some (dirs w' !! targetFolder)
    /\ (forall p, p <> vendorJs -> files w' !! p = files Sample.tree !! p)
    /\ console w' = console Sample.tree.
Proof.
  apply (vendor_script_written Sample.passing Sample.tree Sample.scriptTexts).
  - repeat (constructor; [vm_compute; reflexivity|]). constructor.
  - reflexivity.
  - vm_compute. reflexivity.
  - right. split; [vm_compute; reflexivity|]. vm_compute. eauto.
Defined.

(** Reading stops at the first script that is not there. *)
Lemma concatScripts_missing (w : World) (scripts : list path) :
  forall content : string,
    Exists (fun script => files w !! script = None) scripts ->
    concatScripts scripts content w
    = (Thrown "ENOENT: no such file or directory, open", w).
Proof.
  induction scripts as [|script scripts IH]; intros content H.
  - inversion H.
  - simpl. unfold bind, readFileAsync.
    destruct (files w !! script) as [text|] eqn:E; [|reflexivity].
    apply IH. inversion H as [? ? Hhead|? ? Htail]; subst;
      [congruence|exact Htail].
Qed.

(** X7: when one of the configured scripts is not there,
    [generateVendorScript] throws and leaves the tree as it was, whatever
    the minifier would do and whatever the other scripts hold. *)
Theorem missing_script_aborts (ext : Externals) (w : World) (script : path) :
  In script scriptFiles ->
  files w !! script = None ->
  exists e : string, generateVendorScript ext w = (Thrown e, w).
Proof.
  intros Hin Hnone. eexists. unfold generateVendorScript, bind.
  rewrite concatScripts_missing; [reflexivity|].
  apply Exists_exists. exists script. split; [|exact Hnone].
  apply list_elem_of_In. exact Hin.
Qed.

Lemma missing_script_aborts_witness :
  exists e : string,
    generateVendorScript Sample.passing Sample2.noSlider
    = (Thrown e, Sample2.noSlider).
Proof.
  apply (missing_script_aborts Sample.passing Sample2.noSlider
           ["scripts"; "jssor.slider.js"]).
  - simpl. tauto.
  - vm_compute. reflexivity.
Defined.

(** X8: the target folder is made without its parents: when neither it nor
    the components folder is there, [generateVendorScript] throws after the
    minification and writes nothing. *)
Theorem target_folder_needs_parent (ext : Externals) (w : World)
    (texts : list string) (code : string) :
  Forall2 (fun script text => files w !! script = Some text) scriptFiles texts ->
  minify ext (JS.concat (map (fun text => text +:+ JS.nl) texts))
  = MinifyCode code ->
  existsSync w targetFolder = false ->
  dirs w !! dirname targetFolder = None ->
  exists e : string, generateVendorScript ext w = (Thrown e, w).
Proof.
  intros Hread Hmin Hex Hparent. eexists.
  rewrite (vendor_concat_in_order_aux ext w texts Hread).
  unfold uglifyAndWrite. rewrite Hmin. unfold bind. rewrite Hex. simpl.
  unfold mkdirSync. rewrite Hex.
  rewrite isDirectory_None by (discriminate || exact Hparent).
  reflexivity.
Qed.

Lemma target_folder_needs_parent_witness :
  exists e : string,
    generateVendorScript Sample.passing Sample2.scriptsOnly
    = (Thrown e, Sample2.scriptsOnly).
Proof.
  apply (target_folder_needs_parent Sample.passing Sample2.scriptsOnly
           Sample.scriptTexts
           (JS.concat (map (fun text => text +:+ JS.nl) Sample.scriptTexts))).
  - repeat (constructor; [vm_compute; reflexivity|]). constructor.
  - reflexivity.
  - vm_compute. reflexivity.
  - vm_compute. reflexivity.
Defined.

(** The scripts are read the same once the bundle is written. *)
Lemma reads_with_vendor_script (w : World) (code : string)
    (scripts : list path) (texts : list string) :
  Forall (fun script => script <> vendorJs) scripts ->
  Forall2 (fun script text => files w !! script = Some text) scripts texts ->
  Forall2 (fun script text =>
             files (withVendorScript code w) !! script = Some text)
    scripts texts.
Proof.
  intros Hne H. revert Hne. induction H as [|script text scripts texts Hr _ IH];
    intros Hne; [constructor|].
  inversion Hne as [|? ? Hhead Htail]; subst. constructor; [|apply IH, Htail].
  simpl. rewrite lookup_insert_ne by congruence.
  rewrite withTargetFolder_files. exact Hr.
Qed.

Lemma scriptFiles_not_bundle :
  Forall (fun script => script <> vendorJs) scriptFiles.
Proof. repeat constructor; discriminate. Qed.

(** X9: bundling again changes nothing: the bundle is not among the scripts
    it is made of, the folder is there by then, and the second run writes
    the same code to the same place. *)
Theorem generateVendorScript_again (ext : Externals) (w : World)
    (texts : list string) (code : string) :
  Forall2 (fun script text => files w !! script = Some text) scriptFiles texts ->
  minify ext (JS.concat (map (fun text => text +:+ JS.nl) texts))
  = MinifyCode code ->
  dirs w !! vendorJs = None ->
  targetReady w ->
  exists w1 : World,
    generateVendorScript ext w = (Done tt, w1)
    /\ generateVendorScript ext w1 = (Done tt, w1).
Proof.
  intros Hread Hmin Hv Hready. exists (withVendorScript code w).
  split.
  - rewrite (vendor_concat_in_order_aux ext w texts Hread).
    apply uglifyAndWrite_run; assumption.
  - rewrite (vendor_concat_in_order_aux ext _ texts
               (reads_with_vendor_script w code _ _ scriptFiles_not_bundle Hread)).
    assert (is_Some (dirs (withVendorScript code w) !! targetFolder)) as Hdir.
    { simpl. apply add_name_is_Some, withTargetFolder_made, Hready. }
    rewrite (uglifyAndWrite_run ext _ _ code Hmin).
    + f_equal. unfold withVendorScript at 1.
      assert (withTargetFolder (withVendorScript code w)
              = withVendorScript code w) as ->.
      { unfold withTargetFolder at 1. unfold existsSync.
        rewrite (isDirectory_Some _ _ Hdir). reflexivity. }
      unfold withVendorScript. simpl. f_equal.
      * apply insert_insert_eq.
      * apply add_name_idemp.
    + simpl. apply add_name_None, withTargetFolder_vendorJs, Hv.
    + left. exact Hdir.
Qed.

Lemma generateVendorScript_again_witness :
  exists w1 : World,
    generateVendorScript Sample.passing Sample.tree = (Done tt, w1)
    /\ generateVendorScript Sample.passing w1 = (Done tt, w1).
Proof.
  apply (generateVendorScript_again Sample.passing Sample.tree
           Sample.scriptTexts
           (JS.concat (map (fun text => text +:+ JS.nl) Sample.scriptTexts))).
  - repeat (constructor; [vm_compute; reflexivity|]). constructor.
  - reflexivity.
  - vm_compute. reflexivity.
  - right. split; [vm_compute; reflexivity|]. vm_compute. eauto.
Defined.

End VendorMore.

(* ===================================================================== *)
(** * More about the pipelines *)
(* ===================================================================== *)

Module PipelineMore.

Import NodePath Sys Lib Gulpfile Artifacts StringFacts Design Vendor Pipeline
  WorldFacts VendorMore.

(** ** Style compilation *)



(** X11: when the style compiler reports an error, the entry file is the
    new one while the compiled stylesheet is the one from before the run,
    or still missing. *)
Theorem compile_error_keeps_stylesheet (ext : Externals) (w : World)
    (names : list string) (message : string) :
  dirs w !! stylesdir = Some names ->
  dirs w !! designScss = None ->
  sass ext (withDesignFile names w) designScss = SassError message ->
  files (compileDesignFile ext w).2 !! designScss = Some (designContent names)
  /\ files (compileDesignFile ext w).2 !! designCss = files w !! designCss.
Proof.
  intros Hdir Hfile Hsass.
  assert (compileDesignFile ext w
          = (Done tt, log_lines [message] (withDesignFile names w))) as ->.
  { unfold compileDesignFile, bind.
    rewrite (generateDesignFile_run w names Hdir Hfile).
    change (join cwd "./components/styles/design.scss") with designScss.
    rewrite Hsass. reflexivity. }
  simpl. split; [apply lookup_insert_eq|].
  apply lookup_insert_ne. discriminate.
Qed.

Lemma compile_error_keeps_stylesheet_witness :
  files (compileDesignFile Sample.badStyles Sample.tree).2 !! designScss
  = Some (designContent Sample.styleNames)
  /\ files (compileDesignFile Sample.badStyles Sample.tree).2 !! designCss
     = files Sample.tree !! designCss.
Proof.
  apply (compile_error_keeps_stylesheet Sample.badStyles Sample.tree
           Sample.styleNames "Undefined variable");
    vm_compute; reflexivity.
Defined.

(** ** The validator's call sites *)

(** X12: the two call sites of the validator differ on the verdict [false]
    only: for the verdict [true], and for a validator that fails with an
    error of its own, [validate] and [validateNoBail] do the same, and what
    the validator printed is on the console; an error of the validator
    goes through both. *)
Theorem validate_agrees_unless_false (ext : Externals) (w : World)
    (o : outcome bool) (lines : list string) :
  validateFolder ext "./components" w = (o, lines) ->
  o <> Done false ->
  validate ext w = validateNoBail ext w
  /\ (validate ext w).2 = log_lines lines w
  /\ (forall e, o = Thrown e -> (validateNoBail ext w).1 = Thrown e).
Proof.
  intros H Ho. unfold validate, validateNoBail, bind. rewrite H.
  destruct o as [[|]|e]; [|contradiction|].
  - split; [reflexivity|]. split; [reflexivity|]. intros e He. discriminate.
  - split; [reflexivity|]. split; [reflexivity|].
    intros e' He. injection He as <-. reflexivity.
Qed.

Lemma validate_agrees_unless_false_witness :
  validate Sample2.crashing Sample.tree
  = validateNoBail Sample2.crashing Sample.tree
  /\ (validate Sample2.crashing Sample.tree).2
     = log_lines ["reading folder"] Sample.tree
  /\ (forall e, @Thrown bool "validator crashed" = Thrown e ->
      (validateNoBail Sample2.crashing Sample.tree).1 = Thrown e).
Proof.
  apply (validate_agrees_unless_false Sample2.crashing Sample.tree
           (Thrown "validator crashed") ["reading folder"]);
    [reflexivity | discriminate].
Defined.

(** ** The archive step *)

Lemma buildComponentSetZip_run (ext : Externals) (w : World) (text : string)
    (members : list (string * json)) :
  files w !! manifestJson = Some text ->
  JSON_parse ext text = Some (JObj members) ->
  buildComponentSetZip ext w
  = zip_dest (toString (member "name" members) +:+ ".zip") (join cwd "dist")
      (gulp_src (minimatch ext)
         ["components/**/*"; "!components/**/tms-timestamp"] w) w.
Proof.
  intros Hfile Hparse. unfold buildComponentSetZip, bind, requireManifest.
  rewrite Hfile, Hparse. reflexivity.
Qed.

Lemma member_missing (key : string) (members : list (string * json)) :
  Forall (fun kv => kv.1 <> key) members -> member key members = Undefined.
Proof.
  induction 1 as [|[k v] members Hk _ IH]; [reflexivity|].
  simpl. rewrite IH. simpl in Hk.
  destruct (String.eqb_spec k key); [contradiction|reflexivity].
Qed.



(** X14: without a manifest, with a manifest that cannot be parsed and with
    the manifest [null] the archive step throws and leaves the tree and the
    archives as they were. *)
Theorem archive_needs_manifest (ext : Externals) (w : World) :
  files w !! manifestJson = None
  \/ (exists text, files w !! manifestJson = Some text
                   /\ (JSON_parse ext text = None
                       \/ JSON_parse ext text = Some JNull)) ->
  exists e : string, buildComponentSetZip ext w = (Thrown e, w).
Proof.
  unfold buildComponentSetZip, bind, requireManifest.
  intros [H|(text & H & [Hp|Hp])]; rewrite H; [|rewrite Hp..]; eexists;
    reflexivity.
Qed.

Lemma archive_needs_manifest_witness :
  exists e : string,
    buildComponentSetZip Sample.passing Sample2.noManifest
    = (Thrown e, Sample2.noManifest).
Proof.
  apply (archive_needs_manifest Sample.passing Sample2.noManifest).
  left. vm_compute. reflexivity.
Defined.

Lemma isDirectory_inv (w : World) (p : path) :
  p <> [] -> isDirectory w p = true -> is_Some (dirs w !! p).
Proof.
  intros Hp H. unfold isDirectory in H.
  rewrite bool_decide_eq_false_2 in H by exact Hp.
  simpl in H. apply bool_decide_eq_true_1 in H. exact H.
Qed.

(** Writing an archive a second time under the same name. *)
Lemma zip_dest_again (name : string) (dir : path)
    (entries : gmap path string) (w : World) :
  dir <> [] ->
  zip_dest name dir entries (zip_dest name dir entries w).2
  = zip_dest name dir entries w.
Proof.
  intros Hdir. unfold zip_dest. simpl. f_equal.
  assert (is_Some
            (add_name dir name
               (if isDirectory w dir then dirs w
                else <[dir := []]> (add_entry dir (dirs w))) !! dir)) as Hs.
  { apply add_name_is_Some. destruct (isDirectory w dir) eqn:E.
    - apply isDirectory_inv; assumption.
    - rewrite lookup_insert_eq. eauto. }
  unfold isDirectory at 1. simpl dirs.
  rewrite (bool_decide_eq_true_2 _ Hs), orb_true_r.
  f_equal; [apply add_name_idemp|apply insert_insert_eq].
Qed.



(** ** The build *)





(** X18: when the entry file is compiled and the minifier then reports an
    error, the build and the dev pipeline both end with the minifier's
    message, in the tree the style step left: the validator is not asked,
    nothing is watched, no archive is made. *)
Theorem minify_error_ends_pipelines (ext : Externals) (w w1 : World)
    (texts : list string) (message : string)
    (changes : list (World -> World)) :
  compileDesignFile ext w = (Done tt, w1) ->
  Forall2 (fun script text => files w1 !! script = Some text) scriptFiles texts ->
  minify ext (JS.concat (map (fun text => text +:+ JS.nl) texts))
  = MinifyError message ->
  build ext w = (Thrown message, w1)
  /\ dev ext changes w = (Thrown message, w1).
Proof.
  intros Hc Hread Hmin.
  assert (generateVendorScript ext w1 = (Thrown message, w1)) as Hv.
  { rewrite (vendor_concat_in_order_aux ext w1 texts Hread).
    unfold uglifyAndWrite. rewrite Hmin. reflexivity. }
  assert (parallel [compileDesignFile ext; generateVendorScript ext] w
          = (Thrown message, w1)) as Hstage.
  { simpl. rewrite Hc, Hv. reflexivity. }
  split; [unfold build|unfold dev]; rewrite series_cons; unfold bind at 1;
    rewrite Hstage; reflexivity.
Qed.

Lemma minify_error_ends_pipelines_witness :
  build Sample.badScripts Sample.tree
  = (Thrown "Unexpected token",
     (compileDesignFile Sample.badScripts Sample.tree).2)
  /\ dev Sample.badScripts Sample.edits Sample.tree
     = (Thrown "Unexpected token",
        (compileDesignFile Sample.badScripts Sample.tree).2).
Proof.
  apply (minify_error_ends_pipelines Sample.badScripts Sample.tree
           (compileDesignFile Sample.badScripts Sample.tree).2
           Sample.scriptTexts "Unexpected token" Sample.edits).
  - vm_compute. reflexivity.
  - repeat (constructor; [vm_compute; reflexivity|]). constructor.
  - reflexivity.
Defined.

(** ** The dev pipeline *)

Lemma keeps_validateNoBail (ext : Externals) : keepsArchives (validateNoBail ext).
Proof.
  intros w. unfold validateNoBail, bind.
  destruct (validateFolder ext "./components" w) as [[b|e] lines]; reflexivity.
Qed.

Lemma watching_archives (ext : Externals) (changes : list (World -> World)) :
  Forall leavesArchives changes ->
  forall w, archives (watching ext changes w).2 = archives w
            /\ (watching ext changes w).1 = Done tt.
Proof.
  induction 1 as [|change changes Hchange _ IH]; intros w; [split; reflexivity|].
  simpl. unfold bind.
  pose proof (keeps_validateNoBail ext (change w)) as Hk.
  destruct (validateNoBail ext (change w)) as [[[]|e] w1]; simpl in *;
    destruct (IH w1) as [Ha Ho]; rewrite Ha, Hk, Hchange; split;
    (reflexivity || exact Ho).
Qed.

(** X19: the dev pipeline makes no archive, whatever the validator answers
    and however often the tree changes, as long as the changes from outside
    write none; and once the generation stage has completed the pipeline
    does not end with an error: a failed validation, and an error of the
    validator, are not passed on by the watcher. *)
Theorem dev_makes_no_archive (ext : Externals)
    (changes : list (World -> World)) (w : World) :
  Forall leavesArchives changes ->
  archives (dev ext changes w).2 = archives w
  /\ (forall w1,
        parallel [compileDesignFile ext; generateVendorScript ext] w
        = (Done tt, w1) ->
        (dev ext changes w).1 = Done tt).
Proof.
  intros Hchanges.
  pose proof (keeps_parallel [compileDesignFile ext; generateVendorScript ext]
                ltac:(repeat constructor;
                      [apply keeps_compileDesignFile
                      |apply keeps_generateVendorScript]) w) as Hk.
  assert (forall w1, archives (watch ext changes w1).2 = archives w1
                     /\ (watch ext changes w1).1 = Done tt) as Hwatch.
  { intros w1. unfold watch, bind. simpl.
    destruct (watching_archives ext changes Hchanges (log_lines
                ["Watching for changes in components folder..."] w1))
      as [Ha Ho].
    destruct (watching ext changes _) as [[[]|e] w2]; simpl in *;
      [|discriminate].
    split; [exact Ha|reflexivity]. }
  unfold dev. rewrite !series_cons. unfold bind.
  destruct (parallel [compileDesignFile ext; generateVendorScript ext] w)
    as [[[]|e] w1]; simpl in Hk.
  - destruct (Hwatch w1) as [Ha Ho].
    destruct (watch ext changes w1) as [[[]|e] w2]; simpl in *;
      [|discriminate].
    split; [congruence|]. intros _ _. reflexivity.
  - split; [exact Hk|]. intros w0 H. discriminate.
Qed.

Lemma dev_makes_no_archive_witness :
  archives (dev Sample2.crashing Sample.edits Sample.tree).2
  = archives Sample.tree
  /\ (forall w1,
        parallel [compileDesignFile Sample2.crashing;
                  generateVendorScript Sample2.crashing] Sample.tree
        = (Done tt, w1) ->
        (dev Sample2.crashing Sample.edits Sample.tree).1 = Done tt).
Proof.
  apply (dev_makes_no_archive Sample2.crashing Sample.edits Sample.tree).
  repeat constructor; intros w; reflexivity.
Defined.

End PipelineMore.
